(** * DeepInfra LLM adapter: a shallow embedding of
      [langchain_community/llms/deepinfra.py] and its verified properties.

    The Python module is embedded function by function.  Python values that
    travel through it are modelled as follows:

    - [bytes] is a list of [Byte.byte];
    - [str] is a list of Unicode code points ([N]);
    - [int] is [Z];
    - a [dict] is an insertion-ordered association list with unique keys;
    - a raised exception is a value of [PyExc], and a computation that may
      raise returns a [PyResult];
    - generators and the calls to the HTTP transport and to the callback
      manager are terms of the interaction type [Gen], executed by [run]. *)

From Stdlib Require Import ZArith NArith List String Ascii Bool Lia.
From Stdlib Require Import Strings.Byte DecimalString.
Import ListNotations.

Set Warnings "-register-all".

Local Open Scope Z_scope.

(* ================================================================== *)
(** ** Python strings and bytes *)
(* ================================================================== *)

(** A Python [str]: a sequence of code points. *)
Definition pystr := list N.

(** A Python [bytes] object. *)
Definition bytes := list byte.

(** ASCII literals. *)
Definition u (s : string) : pystr :=
  map N_of_ascii (list_ascii_of_string s).

Definition b (s : string) : bytes := list_byte_of_string s.

(** Literals of texts that contain double quotes are written with an
    apostrophe in place of each double quote: [j] and [jb] put the double
    quotes back. *)
Definition j (s : string) : pystr :=
  map (fun c => if N.eqb c 39 then 34%N else c) (u s).

Definition jb (s : string) : bytes :=
  map (fun c => if Byte.eqb c x27 then x22 else c) (b s).

Fixpoint pystr_eqb (x y : pystr) : bool :=
  match x, y with
  | [], [] => true
  | c :: x', d :: y' => N.eqb c d && pystr_eqb x' y'
  | _, _ => false
  end.

Fixpoint bytes_eqb (x y : bytes) : bool :=
  match x, y with
  | [], [] => true
  | c :: x', d :: y' => Byte.eqb c d && bytes_eqb x' y'
  | _, _ => false
  end.

(** [x.startswith(p)] on [bytes]. *)
Fixpoint bytes_startswith (p x : bytes) : bool :=
  match p, x with
  | [], _ => true
  | c :: p', d :: x' => Byte.eqb c d && bytes_startswith p' x'
  | _ :: _, [] => false
  end.

(** [x.startswith(p)] on [str]. *)
Fixpoint str_startswith (p x : pystr) : bool :=
  match p, x with
  | [], _ => true
  | c :: p', d :: x' => N.eqb c d && str_startswith p' x'
  | _ :: _, [] => false
  end.

(** [needle in hay] on [str]: substring search. *)
Fixpoint str_contains (needle hay : pystr) : bool :=
  str_startswith needle hay ||
  match hay with
  | [] => false
  | _ :: hay' => str_contains needle hay'
  end.

(** The bytes that [bytes.strip()] removes: space, [\t], [\n], [\v], [\f],
    [\r]. *)
Definition is_bytes_space (c : byte) : bool :=
  let n := Byte.to_N c in
  (N.eqb n 32 || (N.leb 9 n && N.leb n 13))%N.

Fixpoint bytes_lstrip (x : bytes) : bytes :=
  match x with
  | [] => []
  | c :: x' => if is_bytes_space c then bytes_lstrip x' else x
  end.

Definition bytes_rstrip (x : bytes) : bytes :=
  rev (bytes_lstrip (rev x)).

Definition bytes_strip (x : bytes) : bytes :=
  bytes_rstrip (bytes_lstrip x).

(** [str(n)] for an [int]. *)
Definition str_of_int (n : Z) : pystr :=
  u (NilZero.string_of_int (Z.to_int n)).

(* ================================================================== *)
(** ** Exceptions *)
(* ================================================================== *)

(** The exceptions that the module and the library calls it makes can raise.
    [Exception] and [ValueError] are raised by the module itself and carry
    their message; the others come from the interpreter and the libraries,
    and their arguments are not modelled; [TransportError] stands for
    whatever the HTTP transport raises.  Every class below derives from
    Python's [Exception]. *)
Inductive PyExc : Type :=
| Exception (msg : pystr)
| ValueError (msg : pystr)
| JSONDecodeError
| UnicodeDecodeError
| AttributeError
| KeyError
| IndexError
| TypeError
| ValidationError
| TransportError (msg : pystr).

Inductive PyResult (A : Type) : Type :=
| Ok (a : A)
| Err (e : PyExc).
Arguments Ok {A} a.
Arguments Err {A} e.

Definition bindR {A B} (m : PyResult A) (f : A -> PyResult B) : PyResult B :=
  match m with
  | Ok a => f a
  | Err e => Err e
  end.

(** [try: m except Exception: h].  All modelled classes derive from
    [Exception], so the handler takes every one of them. *)
Definition isinstance_Exception (e : PyExc) : bool := true.

Definition try_except_Exception {A} (m : PyResult A) (h : PyResult A)
  : PyResult A :=
  match m with
  | Ok a => Ok a
  | Err e => if isinstance_Exception e then h else Err e
  end.

(* ================================================================== *)
(** ** UTF-8 *)
(* ================================================================== *)

Local Open Scope N_scope.

Definition is_cont (n : N) : bool := (128 <=? n) && (n <=? 191).

(** Bounds on the second byte of a three- and four-byte sequence: they
    exclude overlong forms, surrogates and code points above U+10FFFF. *)
Definition lo3 (n0 : N) : N := if n0 =? 224 then 160 else 128.
Definition hi3 (n0 : N) : N := if n0 =? 237 then 159 else 191.
Definition lo4 (n0 : N) : N := if n0 =? 240 then 144 else 128.
Definition hi4 (n0 : N) : N := if n0 =? 244 then 143 else 191.

(** [x.decode("utf-8")] with the default strict error handling: [None]
    stands for [UnicodeDecodeError]. *)
Fixpoint utf8_decode (x : bytes) : option pystr :=
  match x with
  | [] => Some []
  | b0 :: r0 =>
    let n0 := Byte.to_N b0 in
    if n0 <? 128 then option_map (cons n0) (utf8_decode r0)
    else
      match r0 with
      | [] => None
      | b1 :: r1 =>
        let n1 := Byte.to_N b1 in
        if (194 <=? n0) && (n0 <=? 223) then
          if is_cont n1
          then option_map (cons ((n0 - 192) * 64 + (n1 - 128)))
                          (utf8_decode r1)
          else None
        else
          match r1 with
          | [] => None
          | b2 :: r2 =>
            let n2 := Byte.to_N b2 in
            if (224 <=? n0) && (n0 <=? 239) then
              if (lo3 n0 <=? n1) && (n1 <=? hi3 n0) && is_cont n2
              then option_map
                     (cons ((n0 - 224) * 4096 + (n1 - 128) * 64 + (n2 - 128)))
                     (utf8_decode r2)
              else None
            else
              match r2 with
              | [] => None
              | b3 :: r3 =>
                let n3 := Byte.to_N b3 in
                if (240 <=? n0) && (n0 <=? 244) then
                  if (lo4 n0 <=? n1) && (n1 <=? hi4 n0)
                     && is_cont n2 && is_cont n3
                  then option_map
                         (cons ((n0 - 240) * 262144 + (n1 - 128) * 4096
                                + (n2 - 128) * 64 + (n3 - 128)))
                         (utf8_decode r3)
                  else None
                else None
              end
          end
      end
  end.

Definition byte_of_N (n : N) : byte :=
  match Byte.of_N n with
  | Some c => c
  | None => x00
  end.

(** The UTF-8 encoding of one code point and of a string; used to say
    which bytes a decoded text stands for. *)
Definition utf8_encode_cp (c : N) : bytes :=
  if c <? 128 then [byte_of_N c]
  else if c <? 2048 then
    [byte_of_N (192 + c / 64); byte_of_N (128 + c mod 64)]
  else if c <? 65536 then
    [byte_of_N (224 + c / 4096); byte_of_N (128 + (c / 64) mod 64);
     byte_of_N (128 + c mod 64)]
  else
    [byte_of_N (240 + c / 262144); byte_of_N (128 + (c / 4096) mod 64);
     byte_of_N (128 + (c / 64) mod 64); byte_of_N (128 + c mod 64)].

Definition utf8_encode (s : pystr) : bytes := flat_map utf8_encode_cp s.

(* ================================================================== *)
(** ** Python values and dictionaries *)
(* ================================================================== *)

(** The values that [json.loads] builds and that keyword arguments carry.
    A [float] keeps the text it was read from: floating point arithmetic is
    not needed by the module. *)
Inductive PyVal : Type :=
| PyNone
| PyBool (v : bool)
| PyInt (z : Z)
| PyFloat (lexeme : pystr)
| PyStr (s : pystr)
| PyList (l : list PyVal)
| PyDict (d : list (pystr * PyVal)).

(** A [dict] with [str] keys, in insertion order. *)
Definition PyDictT := list (pystr * PyVal).

Fixpoint dict_get (k : pystr) (d : PyDictT) : option PyVal :=
  match d with
  | [] => None
  | (k', v) :: d' => if pystr_eqb k k' then Some v else dict_get k d'
  end.

(** [d[k] = v]: an existing key keeps its position, a new key is appended. *)
Fixpoint dict_set (k : pystr) (v : PyVal) (d : PyDictT) : PyDictT :=
  match d with
  | [] => [(k, v)]
  | (k', v') :: d' =>
    if pystr_eqb k k' then (k, v) :: d' else (k', v') :: dict_set k v d'
  end.

(** [d.update(e)], the core of [{**d, **e}]. *)
Fixpoint dict_update (d e : PyDictT) : PyDictT :=
  match e with
  | [] => d
  | (k, v) :: e' => dict_update (dict_set k v d) e'
  end.

(** [{**d, **e}]. *)
Definition dict_merge (d e : PyDictT) : PyDictT :=
  dict_update (dict_update [] d) e.

(** [dict(pairs)]. *)
Definition dict_of_pairs (kvs : list (pystr * PyVal)) : PyDictT :=
  dict_update [] kvs.

(* ================================================================== *)
(** ** [json.loads] *)
(* ================================================================== *)

(** A model of the decoder of Python's [json] module on a [str]: the JSON
    grammar of RFC 8259 with the decoder's extensions ([NaN], [Infinity],
    [-Infinity]; lone surrogates in [\u] escapes are kept; a repeated key
    keeps its last value).  Nesting is explored with a fuel that
    [json_fuel] makes sufficient, see [scan_once_fuel].  The interpreter's
    limits on the depth of nesting and on the number of digits of an
    integer are not modelled. *)

Inductive Scan (A : Type) : Type :=
| Scanned (a : A) (rest : pystr)
| Malformed
| Exhausted.
Arguments Scanned {A} a rest.
Arguments Malformed {A}.
Arguments Exhausted {A}.

Definition is_json_ws (c : N) : bool :=
  (c =? 32) || (c =? 9) || (c =? 10) || (c =? 13).

Fixpoint skip_ws (s : pystr) : pystr :=
  match s with
  | [] => []
  | c :: r => if is_json_ws c then skip_ws r else s
  end.

Definition is_digit (c : N) : bool := (48 <=? c) && (c <=? 57).

Definition hex_val (c : N) : option N :=
  if is_digit c then Some (c - 48)
  else if (97 <=? c) && (c <=? 102) then Some (c - 87)
  else if (65 <=? c) && (c <=? 70) then Some (c - 55)
  else None.

Definition hex4 (h1 h2 h3 h4 : N) : option N :=
  match hex_val h1, hex_val h2, hex_val h3, hex_val h4 with
  | Some a, Some b, Some c, Some d => Some (((a * 16 + b) * 16 + c) * 16 + d)
  | _, _, _, _ => None
  end.

(** The character after a backslash, for the one-letter escapes. *)
Definition escape_char (e : N) : option N :=
  if e =? 34 then Some 34          (* quote *)
  else if e =? 92 then Some 92     (* backslash *)
  else if e =? 47 then Some 47     (* slash *)
  else if e =? 98 then Some 8      (* b *)
  else if e =? 102 then Some 12    (* f *)
  else if e =? 110 then Some 10    (* n *)
  else if e =? 114 then Some 13    (* r *)
  else if e =? 116 then Some 9     (* t *)
  else None.

Definition is_high_surrogate (c : N) : bool := (55296 <=? c) && (c <=? 56319).
Definition is_low_surrogate (c : N) : bool := (56320 <=? c) && (c <=? 57343).
Definition join_surrogates (hi lo : N) : N :=
  65536 + (hi - 55296) * 1024 + (lo - 56320).

Definition prepend (c : N) (r : option (pystr * pystr))
  : option (pystr * pystr) :=
  match r with
  | Some (t, rest) => Some (c :: t, rest)
  | None => None
  end.

(** The body of a string, after its opening quote: the decoded characters
    and what follows the closing quote.  Control characters are refused
    (strict mode). *)
Fixpoint scanstring (s : pystr) : option (pystr * pystr) :=
  match s with
  | [] => None
  | c :: r =>
    if c =? 34 then Some ([], r)
    else if c =? 92 then
      match r with
      | [] => None
      | e :: r' =>
        if e =? 117 then
          match r' with
          | h1 :: h2 :: h3 :: h4 :: r'' =>
            match hex4 h1 h2 h3 h4 with
            | None => None
            | Some cp =>
              match r'' with
              | bs :: uu :: g1 :: g2 :: g3 :: g4 :: r3 =>
                if is_high_surrogate cp && (bs =? 92) && (uu =? 117) then
                  match hex4 g1 g2 g3 g4 with
                  | Some lo =>
                    if is_low_surrogate lo
                    then prepend (join_surrogates cp lo) (scanstring r3)
                    else prepend cp (scanstring r'')
                  | None => None
                  end
                else prepend cp (scanstring r'')
              | _ => prepend cp (scanstring r'')
              end
            end
          | _ => None
          end
        else
          match escape_char e with
          | Some ch => prepend ch (scanstring r')
          | None => None
          end
      end
    else if c <? 32 then None
    else prepend c (scanstring r)
  end.

Fixpoint span_digits (s : pystr) : pystr * pystr :=
  match s with
  | [] => ([], [])
  | c :: r =>
    if is_digit c
    then let (ds, rest) := span_digits r in (c :: ds, rest)
    else ([], s)
  end.

Definition digits_value (ds : pystr) : Z :=
  fold_left (fun acc c => (acc * 10 + Z.of_N (c - 48))%Z) ds 0%Z.

(** The optional fraction: a dot followed by at least one digit. *)
Definition scan_frac (s : pystr) : pystr * pystr :=
  match s with
  | dot :: d :: r =>
    if (dot =? 46) && is_digit d
    then let (ds, rest) := span_digits r in (dot :: d :: ds, rest)
    else ([], s)
  | _ => ([], s)
  end.

(** The optional exponent: [e] or [E], an optional sign, at least one
    digit. *)
Definition scan_exp (s : pystr) : pystr * pystr :=
  match s with
  | e :: d :: r =>
    if (e =? 101) || (e =? 69) then
      if is_digit d
      then let (ds, rest) := span_digits r in (e :: d :: ds, rest)
      else if (d =? 43) || (d =? 45) then
        match r with
        | d' :: r' =>
          if is_digit d'
          then let (ds, rest) := span_digits r' in (e :: d :: d' :: ds, rest)
          else ([], s)
        | [] => ([], s)
        end
      else ([], s)
    else ([], s)
  | _ => ([], s)
  end.

(** A number: an [int] when it has neither fraction nor exponent, else a
    [float]. *)
Definition match_number (s : pystr) : option (PyVal * pystr) :=
  let (neg, s1) :=
    match s with
    | c :: r => if c =? 45 then (true, r) else (false, s)
    | [] => (false, s)
    end in
  match s1 with
  | [] => None
  | d :: r =>
    if is_digit d then
      let (ip, r1) :=
        if d =? 48 then ([d], r)
        else let (ds, rest) := span_digits r in (d :: ds, rest) in
      let (fp, r2) := scan_frac r1 in
      let (ep, r3) := scan_exp r2 in
      match fp, ep with
      | [], [] =>
        Some (PyInt (if neg then (- digits_value ip)%Z else digits_value ip),
              r3)
      | _, _ =>
        Some (PyFloat ((if neg then [45] else []) ++ ip ++ fp ++ ep), r3)
      end
    else None
  end.

(** The literals and numbers: everything that is neither a string, an
    object nor an array. *)
Definition scan_atom (s : pystr) : option (PyVal * pystr) :=
  if str_startswith (u "null") s then Some (PyNone, skipn 4 s)
  else if str_startswith (u "true") s then Some (PyBool true, skipn 4 s)
  else if str_startswith (u "false") s then Some (PyBool false, skipn 5 s)
  else if str_startswith (u "NaN") s then Some (PyFloat (u "NaN"), skipn 3 s)
  else if str_startswith (u "Infinity") s
       then Some (PyFloat (u "Infinity"), skipn 8 s)
  else if str_startswith (u "-Infinity") s
       then Some (PyFloat (u "-Infinity"), skipn 9 s)
  else match_number s.

(** One JSON value at the head of [s]; [parse_items] reads the elements of
    an array after its opening bracket and [parse_members] the members of an
    object after its opening brace, both up to and including the closing
    delimiter. *)
Fixpoint scan_once (fuel : nat) (s : pystr) {struct fuel} : Scan PyVal :=
  match fuel with
  | O => Exhausted
  | S fuel' =>
    match s with
    | [] => Malformed
    | c :: r =>
      if c =? 34 then
        match scanstring r with
        | Some (t, rest) => Scanned (PyStr t) rest
        | None => Malformed
        end
      else if c =? 123 then
        match skip_ws r with
        | [] => Malformed
        | c1 :: r1 =>
          if c1 =? 125 then Scanned (PyDict []) r1
          else
            match parse_members fuel' (c1 :: r1) with
            | Scanned kvs rest => Scanned (PyDict (dict_of_pairs kvs)) rest
            | Malformed => Malformed
            | Exhausted => Exhausted
            end
        end
      else if c =? 91 then
        match skip_ws r with
        | [] => Malformed
        | c1 :: r1 =>
          if c1 =? 93 then Scanned (PyList []) r1
          else
            match parse_items fuel' (c1 :: r1) with
            | Scanned vs rest => Scanned (PyList vs) rest
            | Malformed => Malformed
            | Exhausted => Exhausted
            end
        end
      else
        match scan_atom s with
        | Some (v, rest) => Scanned v rest
        | None => Malformed
        end
    end
  end

with parse_items (fuel : nat) (s : pystr) {struct fuel}
  : Scan (list PyVal) :=
  match fuel with
  | O => Exhausted
  | S fuel' =>
    match scan_once fuel' s with
    | Scanned v rest =>
      match skip_ws rest with
      | [] => Malformed
      | c :: r =>
        if c =? 93 then Scanned [v] r
        else if c =? 44 then
          match parse_items fuel' (skip_ws r) with
          | Scanned vs rest' => Scanned (v :: vs) rest'
          | Malformed => Malformed
          | Exhausted => Exhausted
          end
        else Malformed
      end
    | Malformed => Malformed
    | Exhausted => Exhausted
    end
  end

with parse_members (fuel : nat) (s : pystr) {struct fuel}
  : Scan (list (pystr * PyVal)) :=
  match fuel with
  | O => Exhausted
  | S fuel' =>
    match s with
    | [] => Malformed
    | q :: r =>
      if q =? 34 then
        match scanstring r with
        | None => Malformed
        | Some (key, r1) =>
          match skip_ws r1 with
          | [] => Malformed
          | colon :: r2 =>
            if colon =? 58 then
              match scan_once fuel' (skip_ws r2) with
              | Scanned v rest =>
                match skip_ws rest with
                | [] => Malformed
                | c :: r3 =>
                  if c =? 125 then Scanned [(key, v)] r3
                  else if c =? 44 then
                    match parse_members fuel' (skip_ws r3) with
                    | Scanned kvs rest' => Scanned ((key, v) :: kvs) rest'
                    | Malformed => Malformed
                    | Exhausted => Exhausted
                    end
                  else Malformed
                end
              | Malformed => Malformed
              | Exhausted => Exhausted
              end
            else Malformed
          end
        end
      else Malformed
    end
  end.

Definition json_fuel (s : pystr) : nat := S (2 * List.length s).

(** [json.loads(s)]: a leading byte order mark is refused, white space is
    allowed around the value and nothing else may follow it. *)
Definition json_loads (s : pystr) : PyResult PyVal :=
  match s with
  | 65279 :: _ => Err JSONDecodeError
  | _ =>
    match scan_once (json_fuel s) (skip_ws s) with
    | Scanned v rest =>
      match skip_ws rest with
      | [] => Ok v
      | _ :: _ => Err JSONDecodeError
      end
    | Malformed => Err JSONDecodeError
    | Exhausted => Err JSONDecodeError
    end
  end.

(* ================================================================== *)
(** ** Attribute access and subscripting on Python values *)
(* ================================================================== *)

(** [v.get(k, default)]: only a [dict] has the method. *)
Definition py_get (v : PyVal) (k : pystr) (default : PyVal)
  : PyResult PyVal :=
  match v with
  | PyDict d =>
    match dict_get k d with
    | Some x => Ok x
    | None => Ok default
    end
  | _ => Err AttributeError
  end.

Inductive PyKey : Type :=
| KStr (s : pystr)
| KInt (i : Z).

(** Position [i] of a sequence of length [n], negative positions counting
    from the end. *)
Definition seq_index (n : nat) (i : Z) : option nat :=
  let len := Z.of_nat n in
  if ((0 <=? i) && (i <? len))%Z then Some (Z.to_nat i)
  else if ((- len <=? i) && (i <? 0))%Z then Some (Z.to_nat (len + i))
  else None.

(** [v[k]]. *)
Definition py_getitem (v : PyVal) (k : PyKey) : PyResult PyVal :=
  match v, k with
  | PyDict d, KStr s =>
    match dict_get s d with
    | Some x => Ok x
    | None => Err KeyError
    end
  | PyDict _, KInt _ => Err KeyError
  | PyList l, KInt i =>
    match seq_index (List.length l) i with
    | Some n =>
      match nth_error l n with
      | Some x => Ok x
      | None => Err IndexError
      end
    | None => Err IndexError
    end
  | PyStr s, KInt i =>
    match seq_index (List.length s) i with
    | Some n =>
      match nth_error s n with
      | Some c => Ok (PyStr [c])
      | None => Err IndexError
      end
    | None => Err IndexError
    end
  | _, _ => Err TypeError
  end.

(* ================================================================== *)
(** ** Collaborators: chunks, transport, callback manager *)
(* ================================================================== *)

Module GenerationChunk.
(** Modelled from the spec: the class [GenerationChunk] of
    [langchain_core.outputs], which the module imports and which is not
    among the sources.  The specification describes the token chunk as
    holding [text: Optional<string>], absent when the server sends a
    token event without text; a value that is neither absent nor a string
    cannot be held and is refused when the chunk is built. *)
Record t : Type := Build { text : option pystr }.

(** Modelled from the spec: the constructor call [GenerationChunk(text=v)],
    which accepts what the [text: Optional<string>] of the specification's
    token chunk can hold. *)
Definition make (text : PyVal) : PyResult t :=
  match text with
  | PyNone => Ok (Build None)
  | PyStr s => Ok (Build (Some s))
  | _ => Err ValidationError
  end.
End GenerationChunk.

(** What [Requests.post] and [Requests.apost] are given: the constructor's
    headers, the target and the JSON body. *)
Record Request : Type := {
  url : pystr;
  headers : list (pystr * pystr);
  data : PyDictT
}.

(** The response of the synchronous transport, as the module reads it:
    [status_code], [text], the lines of [iter_lines()]; [json()] decodes the
    body text. *)
Module Response.
Record t : Type := Build {
  status_code : Z;
  text : pystr;
  iter_lines : list bytes
}.
Definition json (r : t) : PyResult PyVal := json_loads (text r).
End Response.

(** The response of the asynchronous transport: [status], the result of
    awaiting [text()], the lines that iterating [content] delivers, the
    result of awaiting [json()], and [text_repr], what formatting the
    method object [response.text] itself gives (the module passes it, not
    the body, to [_handle_status]). *)
Module ClientResponse.
Record t : Type := Build {
  status : Z;
  text : pystr;
  content : list bytes;
  json : PyResult PyVal;
  text_repr : pystr
}.
End ClientResponse.

(** The handle of a callback manager; what it does is part of the
    [World]. *)
Inductive CallbackManagerForLLMRun : Type := callback_manager.

(* ================================================================== *)
(** ** Generators and calls to the outside *)
(* ================================================================== *)

(** A computation that yields values of [Y], posts requests, notifies the
    callback manager and ends with a result [A] or an exception.  A plain
    function is a computation that never yields. *)
Inductive Gen (Y A : Type) : Type :=
| Ret (a : A)
| Raise (e : PyExc)
| Yield (y : Y) (k : Gen Y A)
| Post (rq : Request) (k : Response.t -> Gen Y A)
| APost (rq : Request) (k : ClientResponse.t -> Gen Y A)
| OnToken (token : option pystr) (k : Gen Y A).
Arguments Ret {Y A} a.
Arguments Raise {Y A} e.
Arguments Yield {Y A} y k.
Arguments Post {Y A} rq k.
Arguments APost {Y A} rq k.
Arguments OnToken {Y A} token k.

Fixpoint bind {Y A B} (m : Gen Y A) (f : A -> Gen Y B) : Gen Y B :=
  match m with
  | Ret a => f a
  | Raise e => Raise e
  | Yield y k => Yield y (bind k f)
  | Post rq k => Post rq (fun r => bind (k r) f)
  | APost rq k => APost rq (fun r => bind (k r) f)
  | OnToken t k => OnToken t (bind k f)
  end.

Notation "x <- m ;; k" := (bind m (fun x => k))
  (at level 61, m at next level, right associativity).
Notation "m ;;; k" := (bind m (fun _ => k))
  (at level 61, right associativity).

Definition liftR {Y A} (r : PyResult A) : Gen Y A :=
  match r with
  | Ok a => Ret a
  | Err e => Raise e
  end.

(** [for x in g: body(x)] inside a generator: the loop body runs between
    the values that [g] yields. *)
Fixpoint for_each {X Y} (g : Gen X unit) (body : X -> Gen Y unit)
  : Gen Y unit :=
  match g with
  | Ret _ => Ret tt
  | Raise e => Raise e
  | Yield x k => body x ;;; for_each k body
  | Post rq k => Post rq (fun r => for_each (k r) body)
  | APost rq k => APost rq (fun r => for_each (k r) body)
  | OnToken t k => OnToken t (for_each k body)
  end.

(** The outside of a call: the two transports, which answer a request or
    fail, and [on_llm_new_token], which is given the tokens it has already
    received (latest first) and the new one, and returns or raises. *)
Record World : Type := {
  post : Request -> PyResult Response.t;
  apost : Request -> PyResult ClientResponse.t;
  on_llm_new_token : list (option pystr) -> option pystr -> PyResult unit
}.

(** What a call does, in order. *)
Inductive Event (Y : Type) : Type :=
| Sent (rq : Request)
| Notified (token : option pystr)
| Yielded (y : Y).
Arguments Sent {Y} rq.
Arguments Notified {Y} token.
Arguments Yielded {Y} y.

(** Running a computation to its end, the caller taking every value it
    yields: the events in order and the final result. *)
Fixpoint run_from {Y A} (w : World) (seen : list (option pystr))
  (g : Gen Y A) : list (Event Y) * PyResult A :=
  match g with
  | Ret a => ([], Ok a)
  | Raise e => ([], Err e)
  | Yield y k =>
    let (tr, r) := run_from w seen k in (Yielded y :: tr, r)
  | Post rq k =>
    match post w rq with
    | Ok resp => let (tr, r) := run_from w seen (k resp) in (Sent rq :: tr, r)
    | Err e => ([Sent rq], Err e)
    end
  | APost rq k =>
    match apost w rq with
    | Ok resp => let (tr, r) := run_from w seen (k resp) in (Sent rq :: tr, r)
    | Err e => ([Sent rq], Err e)
    end
  | OnToken t k =>
    match on_llm_new_token w seen t with
    | Ok _ =>
      let (tr, r) := run_from w (t :: seen) k in (Notified t :: tr, r)
    | Err e => ([Notified t], Err e)
    end
  end.

Definition run {Y A} (w : World) (g : Gen Y A)
  : list (Event Y) * PyResult A :=
  run_from w [] g.

(* ================================================================== *)
(** ** The class [DeepInfra] *)
(* ================================================================== *)

Local Open Scope Z_scope.

Definition DEFAULT_MODEL_ID : pystr :=
  u "meta-llama/Meta-Llama-3-70B-Instruct".

Record DeepInfra : Type := {
  model_id : pystr;
  model_kwargs : option PyDictT;
  deepinfra_api_token : option pystr
}.

(** What an f-string puts for an [Optional[str]]. *)
Definition format_optional (s : option pystr) : pystr :=
  match s with
  | Some x => x
  | None => u "None"
  end.

(** The root validator.  [get_from_dict_or_env] of [langchain_core.utils]
    is not among the sources and is taken as a parameter: given the values,
    the key and the name of the environment variable it returns the token
    or raises. *)
Definition validate_environment
  (get_from_dict_or_env : PyDictT -> pystr -> pystr -> PyResult PyVal)
  (values : PyDictT) : PyResult PyDictT :=
  bindR (get_from_dict_or_env values (u "deepinfra_api_token")
                              (u "DEEPINFRA_API_TOKEN"))
        (fun deepinfra_api_token =>
           Ok (dict_set (u "deepinfra_api_token") deepinfra_api_token values)).

Definition _identifying_params (self : DeepInfra) : PyDictT :=
  dict_update
    (dict_update [] [(u "model_id", PyStr (model_id self))])
    [(u "model_kwargs",
      match model_kwargs self with
      | Some d => PyDict d
      | None => PyNone
      end)].

Definition _llm_type (self : DeepInfra) : pystr := u "deepinfra".

Definition _url (self : DeepInfra) : pystr :=
  u "https://api.deepinfra.com/v1/inference/" ++ model_id self.

Definition _headers (self : DeepInfra) : list (pystr * pystr) :=
  [ (u "Authorization",
     u "bearer " ++ format_optional (deepinfra_api_token self));
    (u "Content-Type", u "application/json") ].

Definition _body (self : DeepInfra) (prompt : pystr) (kwargs : PyDictT)
  : PyDictT :=
  let model_kwargs :=
    match model_kwargs self with
    | Some d => d
    | None => []
    end in
  let model_kwargs := dict_merge model_kwargs kwargs in
  dict_update [(u "input", PyStr prompt)] model_kwargs.

(** [text] is what the f-strings put for the second argument. *)
Definition _handle_status (self : DeepInfra) (code : Z) (text : pystr)
  : PyResult unit :=
  if code >=? 500 then
    Err (Exception (u "DeepInfra Server: Error " ++ text))
  else if code =? 401 then
    Err (Exception (u "DeepInfra Server: Unauthorized"))
  else if code =? 403 then
    Err (Exception (u "DeepInfra Server: Unauthorized"))
  else if code =? 404 then
    Err (Exception (u "DeepInfra Server: Model not found " ++ model_id self))
  else if code =? 429 then
    Err (Exception (u "DeepInfra Server: Rate limit exceeded"))
  else if code >=? 400 then
    Err (ValueError (u "DeepInfra received an invalid payload: " ++ text))
  else if negb (code =? 200) then
    Err (Exception
           (u "DeepInfra returned an unexpected response with status "
            ++ str_of_int code ++ u ": " ++ text))
  else Ok tt.

(* ------------------------------------------------------------------ *)
(** *** Stream parsing *)

Definition _parse_stream_helper (line : bytes) : PyResult (option pystr) :=
  if negb (bytes_eqb line []) && bytes_startswith (b "data:") line then
    let line :=
      if bytes_startswith (b "data: ") line
      then skipn (List.length (b "data: ")) line
      else skipn (List.length (b "data:")) line in
    if bytes_eqb (bytes_strip line) (b "[DONE]") then Ok None
    else
      match utf8_decode line with
      | Some s => Ok (Some s)
      | None => Err UnicodeDecodeError
      end
  else Ok None.

Fixpoint _parse_stream (rbody : list bytes) : Gen pystr unit :=
  match rbody with
  | [] => Ret tt
  | line :: rbody' =>
    _line <- liftR (_parse_stream_helper line) ;;
    match _line with
    | Some l => Yield l (_parse_stream rbody')
    | None => _parse_stream rbody'
    end
  end.

Fixpoint _parse_stream_async (rbody : list bytes) : Gen pystr unit :=
  match rbody with
  | [] => Ret tt
  | line :: rbody' =>
    _line <- liftR (_parse_stream_helper line) ;;
    match _line with
    | Some l => Yield l (_parse_stream_async rbody')
    | None => _parse_stream_async rbody'
    end
  end.

Definition _handle_sse_line (line : pystr)
  : PyResult (option GenerationChunk.t) :=
  try_except_Exception
    (bindR (json_loads line) (fun obj =>
     bindR (py_get obj (u "token") (PyDict [])) (fun token =>
     bindR (py_get token (u "text") PyNone) (fun text =>
     bindR (GenerationChunk.make text) (fun chunk =>
     Ok (Some chunk))))))
    (Ok None).

(* ------------------------------------------------------------------ *)
(** *** The four entry points *)

Definition Void : Type := Empty_set.

Definition _call (self : DeepInfra) (prompt : pystr)
  (stop : option (list pystr))
  (run_manager : option CallbackManagerForLLMRun)
  (kwargs : PyDictT) : Gen Void PyVal :=
  Post {| url := _url self; headers := _headers self;
          data := _body self prompt kwargs |}
    (fun response =>
       liftR (_handle_status self (Response.status_code response)
                             (Response.text response)) ;;;
       data <- liftR (Response.json response) ;;
       results <- liftR (py_getitem data (KStr (u "results"))) ;;
       first <- liftR (py_getitem results (KInt 0)) ;;
       liftR (py_getitem first (KStr (u "generated_text")))).

Definition _acall (self : DeepInfra) (prompt : pystr)
  (stop : option (list pystr))
  (run_manager : option CallbackManagerForLLMRun)
  (kwargs : PyDictT) : Gen Void PyVal :=
  APost {| url := _url self; headers := _headers self;
           data := _body self prompt kwargs |}
    (fun response =>
       liftR (_handle_status self (ClientResponse.status response)
                             (ClientResponse.text_repr response)) ;;;
       data <- liftR (ClientResponse.json response) ;;
       results <- liftR (py_getitem data (KStr (u "results"))) ;;
       first <- liftR (py_getitem results (KInt 0)) ;;
       liftR (py_getitem first (KStr (u "generated_text")))).

Definition _stream (self : DeepInfra) (prompt : pystr)
  (stop : option (list pystr))
  (run_manager : option CallbackManagerForLLMRun)
  (kwargs : PyDictT) : Gen GenerationChunk.t unit :=
  Post {| url := _url self; headers := _headers self;
          data := _body self prompt
                    (dict_set (u "stream") (PyBool true)
                              (dict_update [] kwargs)) |}
    (fun response =>
       let response_text := Response.text response in
       if str_contains (u "error") response_text then
         Raise (Exception (u "DeepInfra Server: " ++ response_text))
       else
         liftR (_handle_status self (Response.status_code response)
                               (Response.text response)) ;;;
         for_each (_parse_stream (Response.iter_lines response))
                  (fun line =>
                     chunk <- liftR (_handle_sse_line line) ;;
                     match chunk with
                     | Some c =>
                       match run_manager with
                       | Some _ =>
                         OnToken (GenerationChunk.text c) (Yield c (Ret tt))
                       | None => Yield c (Ret tt)
                       end
                     | None => Ret tt
                     end)).

Definition _astream (self : DeepInfra) (prompt : pystr)
  (stop : option (list pystr))
  (run_manager : option CallbackManagerForLLMRun)
  (kwargs : PyDictT) : Gen GenerationChunk.t unit :=
  APost {| url := _url self; headers := _headers self;
           data := _body self prompt
                     (dict_set (u "stream") (PyBool true)
                               (dict_update [] kwargs)) |}
    (fun response =>
       let response_text := ClientResponse.text response in
       if str_contains (u "error") response_text then
         Raise (Exception (u "DeepInfra Server: " ++ response_text))
       else
         liftR (_handle_status self (ClientResponse.status response)
                               (ClientResponse.text_repr response)) ;;;
         for_each (_parse_stream_async (ClientResponse.content response))
                  (fun line =>
                     chunk <- liftR (_handle_sse_line line) ;;
                     match chunk with
                     | Some c =>
                       match run_manager with
                       | Some _ =>
                         OnToken (GenerationChunk.text c) (Yield c (Ret tt))
                       | None => Yield c (Ret tt)
                       end
                     | None => Ret tt
                     end)).

(* ================================================================== *)
(** ** Vocabulary of the specification *)
(* ================================================================== *)

(** The tagged outcomes of the specification's status classification and
    its precedence table, first match first. *)
Inductive OutcomeClassification : Type :=
| Success
| ServerError
| Unauthorized
| Forbidden
| NotFound
| RateLimited
| InvalidPayload
| UnexpectedStatus.

Definition classify_spec (c : Z) : OutcomeClassification :=
  if 500 <=? c then ServerError
  else if c =? 401 then Unauthorized
  else if c =? 403 then Forbidden
  else if c =? 404 then NotFound
  else if c =? 429 then RateLimited
  else if (400 <=? c) && (c <=? 499) then InvalidPayload
  else if negb (c =? 200) then UnexpectedStatus
  else Success.

(** The path [results[0].generated_text] of a JSON body, in the
    specification's reading: an object whose [results] is an array whose
    first element is an object with a [generated_text] member. *)
Definition generated_text_path (data : PyVal) : option PyVal :=
  match data with
  | PyDict d =>
    match dict_get (u "results") d with
    | Some (PyList (PyDict first :: _)) => dict_get (u "generated_text") first
    | _ => None
    end
  | _ => None
  end.

(** The error classes that status classification raises. *)
Definition status_error (e : PyExc) : bool :=
  match e with
  | Exception _ | ValueError _ => true
  | _ => false
  end.

(** A well-formed [dict]: no key twice. *)
Definition dict_wf (d : PyDictT) : Prop := NoDup (map fst d).

Definition count_notified {Y} (tr : list (Event Y)) : nat :=
  List.length (filter (fun e => match e with Notified _ => true | _ => false end)
                      tr).

Definition count_yielded {Y} (tr : list (Event Y)) : nat :=
  List.length (filter (fun e => match e with Yielded _ => true | _ => false end)
                      tr).


Definition sent {Y} (tr : list (Event Y)) : list Request :=
  flat_map (fun e => match e with Sent rq => [rq] | _ => [] end) tr.

(** The events of delivering [chunks] under an observer: each chunk's text
    is notified, then the chunk is yielded. *)
Definition observed (chunks : list GenerationChunk.t)
  : list (Event GenerationChunk.t) :=
  flat_map (fun c => [Notified (GenerationChunk.text c); Yielded c]) chunks.

(** [line] is a data line whose remainder is [rest]: the data prefix with
    its one space, or the bare prefix when no space follows it. *)
Definition data_line (line rest : bytes) : Prop :=
  line = b "data: " ++ rest \/
  (line = b "data:" ++ rest /\ bytes_startswith (b " ") rest = false).

Definition all_space (w : bytes) : Prop :=
  Forall (fun c => is_bytes_space c = true) w.

(** The configured model parameters, [self.model_kwargs or {}], and the
    parameter that the merge of the configured parameters with the
    call-time overrides gives for a key: the call-time value when there is
    one, else the configured one. *)
Definition configured (self : DeepInfra) : PyDictT :=
  match model_kwargs self with
  | Some d => d
  | None => []
  end.

Definition merged_param (self : DeepInfra) (kwargs : PyDictT) (k : pystr)
  : option PyVal :=
  match dict_get k kwargs with
  | Some v => Some v
  | None => dict_get k (configured self)
  end.

(** A configuration whose model parameters carry an [input] entry. *)
Definition input_llm : DeepInfra :=
  {| model_id := DEFAULT_MODEL_ID;
     model_kwargs := Some [(u "input", PyStr (u "x"))];
     deepinfra_api_token := Some (u "secret") |}.

Definition hello_response : Response.t :=
  Response.Build 200 (j "{'results':[{'generated_text':'hello'}]}") [].

(** The requests that the blocking and the streaming entry points send. *)
Definition blocking_request (self : DeepInfra) (prompt : pystr)
  (kwargs : PyDictT) : Request :=
  {| url := _url self; headers := _headers self;
     data := _body self prompt kwargs |}.

Definition streaming_request (self : DeepInfra) (prompt : pystr)
  (kwargs : PyDictT) : Request :=
  {| url := _url self; headers := _headers self;
     data := _body self prompt
               (dict_set (u "stream") (PyBool true) (dict_update [] kwargs)) |}.

(** A world whose transports fail and whose observer accepts everything,
    and the world obtained from [w] by letting the transports answer every
    request with the given responses. *)
Definition offline : World :=
  {| post := fun _ => Err (TransportError (u "offline"));
     apost := fun _ => Err (TransportError (u "offline"));
     on_llm_new_token := fun _ _ => Ok tt |}.

Definition answering (w : World) (resp : Response.t)
  (aresp : ClientResponse.t) : World :=
  {| post := fun _ => Ok resp;
     apost := fun _ => Ok aresp;
     on_llm_new_token := on_llm_new_token w |}.



(** Sample values for the examples. *)
Definition sample_llm : DeepInfra :=
  {| model_id := DEFAULT_MODEL_ID;
     model_kwargs := None;
     deepinfra_api_token := Some (u "secret") |}.

Definition error_response : Response.t :=
  Response.Build 200 (j "{'error':'bad model'}")
                 [jb "data: {'token':{'text':'a'}}"].

Definition error_aresponse : ClientResponse.t :=
  ClientResponse.Build 200 (j "{'error':'bad model'}")
                       [jb "data: {'token':{'text':'a'}}"]
                       (Err JSONDecodeError) (u "<bound method>").

Definition token_lines : list bytes :=
  [jb "data: {'token':{'text':'a'}}";
   jb "data: {'token':{'text':'b'}}";
   jb "data: [DONE]"].

Definition token_response : Response.t :=
  Response.Build 200 (u "") token_lines.

Definition token_aresponse : ClientResponse.t :=
  ClientResponse.Build 200 (u "") token_lines (Err JSONDecodeError)
                       (u "<bound method>").

(** The chunks that the streaming loop makes of one raw line and of a
    sequence of raw lines: the decoder's payload, when there is one, given
    to the interpreter. *)
Definition chunk_of_line (line : bytes) : list GenerationChunk.t :=
  match _parse_stream_helper line with
  | Ok (Some l) =>
    match _handle_sse_line l with
    | Ok (Some c) => [c]
    | _ => []
    end
  | _ => []
  end.

Definition chunks_of_lines (lines : list bytes) : list GenerationChunk.t :=
  flat_map chunk_of_line lines.

(** A raw line on which the decoder does not raise. *)
Definition decodable (line : bytes) : Prop :=
  exists r, _parse_stream_helper line = Ok r.

(** A raw line that the decoder discards: not a data line, or the
    sentinel. *)
Definition discarded (line : bytes) : Prop :=
  bytes_startswith (b "data:") line = false \/
  exists rest, data_line line rest /\ bytes_strip rest = b "[DONE]".

(** A response with a partial result, a heartbeat comment, the sentinel and
    one more token after it. *)
Definition late_token_lines : list bytes :=
  [jb "data: {'token':{'text':'a'}}";
   jb ": keep-alive";
   jb "data: [DONE]";
   jb "data: {'token':{'text':'c'}}"].

(** A response cut in the middle of a UTF-8 sequence after its first
    token. *)
Definition broken_lines : list bytes :=
  [jb "data: {'token':{'text':'a'}}";
   b "data: " ++ [xe2; x82];
   jb "data: {'token':{'text':'b'}}"].

Definition not_found_response : Response.t :=
  Response.Build 404 (j "{'results':[{'generated_text':'hello'}]}")
                 token_lines.

Definition not_found_aresponse : ClientResponse.t :=
  ClientResponse.Build 404 (j "{'results':[{'generated_text':'hello'}]}")
    token_lines
    (Ok (PyDict [(u "results",
                  PyList [PyDict [(u "generated_text", PyStr (u "hello"))]])]))
    (u "<bound method>").

Definition hello_aresponse : ClientResponse.t :=
  ClientResponse.Build 200 (j "{'results':[{'generated_text':'hello'}]}") []
    (Ok (PyDict [(u "results",
                  PyList [PyDict [(u "generated_text", PyStr (u "hello"))]])]))
    (u "<bound method>").

(** The body of the [try] block of [_handle_sse_line]: decoding the JSON
    text, the two [get] calls and the construction of the chunk. *)
Definition sse_line_body (line : pystr)
  : PyResult (option GenerationChunk.t) :=
  bindR (json_loads line) (fun obj =>
  bindR (py_get obj (u "token") (PyDict [])) (fun token =>
  bindR (py_get token (u "text") PyNone) (fun text =>
  bindR (GenerationChunk.make text) (fun chunk =>
  Ok (Some chunk))))).

(** The text of a body made of the given lines, one per line. *)
Fixpoint body_text (lines : list pystr) : pystr :=
  match lines with
  | [] => []
  | [l] => l
  | l :: ls => l ++ 10%N :: body_text ls
  end.

(** A body with a malformed line between two token lines, the same body
    without the malformed line, and a body whose malformed line holds the
    word [error]. *)
Definition malformed_text : pystr :=
  body_text [j "data: {'token':{'text':'a'}}"; j "data: {not json";
             j "data: {'token':{'text':'b'}}"].

Definition wellformed_text : pystr :=
  body_text [j "data: {'token':{'text':'a'}}";
             j "data: {'token':{'text':'b'}}"].

Definition malformed_error_response : Response.t :=
  Response.Build 200
    (body_text [j "data: {'error"; j "data: {'token':{'text':'b'}}"])
    [jb "data: {'error"; jb "data: {'token':{'text':'b'}}"].

(** A body with a comment, the sentinel and a token after it, and the same
    body without the sentinel line. *)
Definition late_token_text : pystr :=
  body_text [j "data: {'token':{'text':'a'}}"; j ": keep-alive";
             j "data: [DONE]"; j "data: {'token':{'text':'c'}}"].

Definition late_token_text_without_sentinel : pystr :=
  body_text [j "data: {'token':{'text':'a'}}"; j ": keep-alive";
             j "data: {'token':{'text':'c'}}"].

(* ================================================================== *)
(** ** Abbreviations and tactics for the proofs *)
(* ================================================================== *)

(** The loop of [_stream] and [_astream] over the decoded lines. *)
Local Abbreviation loop rm lines :=
  (for_each (_parse_stream lines)
            (fun line =>
               chunk <- liftR (_handle_sse_line line) ;;
               match chunk with
               | Some c =>
                 match rm with
                 | Some _ =>
                   OnToken (GenerationChunk.text c) (Yield c (Ret tt))
                 | None => Yield c (Ret tt)
                 end
               | None => Ret tt
               end)).

(** The look-ups that follow the status check in [_call] and [_acall]. *)
Local Abbreviation lookups data :=
  (bindR (py_getitem data (KStr (u "results"))) (fun results =>
   bindR (py_getitem results (KInt 0)) (fun first =>
   py_getitem first (KStr (u "generated_text"))))).

(** Case analysis on the comparisons of a status code. *)
Ltac case_status :=
  repeat match goal with
         | |- context [?a >=? ?b] => rewrite (Z.geb_leb a b)
         | |- context [?a <=? ?b] => destruct (Z.leb_spec a b)
         | |- context [?a =? ?b] => destruct (Z.eqb_spec a b)
         end; simpl; try lia; try reflexivity.

(** Inversion of a successful decoding step. *)
Ltac decoded H E :=
  match type of H with
  | option_map _ (utf8_decode ?r) = Some _ =>
    destruct (utf8_decode r) as [?t|] eqn:E; [|discriminate H];
    simpl in H; injection H as <-
  end.

(* ================================================================== *)
(** * Properties *)
(* ================================================================== *)

(** ** Status classification *)

(** C1 (as the code has it): status classification is a total function of
    the code and the text, with this partition of the integers: 500 and
    above raise the server error with the text; 401 and 403 both raise the
    same Unauthorized error; 404 raises the model-not-found error naming the
    model identifier; 429 raises the rate limit error; every other code
    from 400 to 499 raises the invalid payload [ValueError] with the text;
    every other code except 200 raises the unexpected-status error with the
    code and the text; 200 returns without raising. *)
Theorem handle_status_precedence (self : DeepInfra) (c : Z) (t : pystr) :
  (500 <= c ->
   _handle_status self c t
   = Err (Exception (u "DeepInfra Server: Error " ++ t))) /\
  (c = 401 \/ c = 403 ->
   _handle_status self c t
   = Err (Exception (u "DeepInfra Server: Unauthorized"))) /\
  (c = 404 ->
   _handle_status self c t
   = Err (Exception (u "DeepInfra Server: Model not found "
                     ++ model_id self))) /\
  (c = 429 ->
   _handle_status self c t
   = Err (Exception (u "DeepInfra Server: Rate limit exceeded"))) /\
  (400 <= c <= 499 -> c <> 401 -> c <> 403 -> c <> 404 -> c <> 429 ->
   _handle_status self c t
   = Err (ValueError (u "DeepInfra received an invalid payload: " ++ t))) /\
  (c < 400 -> c <> 200 ->
   _handle_status self c t
   = Err (Exception
            (u "DeepInfra returned an unexpected response with status "
             ++ str_of_int c ++ u ": " ++ t))) /\
  (c = 200 -> _handle_status self c t = Ok tt).
Proof.
  unfold _handle_status.
  repeat split; intros; case_status.
Qed.

Lemma handle_status_precedence_witness :
  _handle_status sample_llm 500 (u "boom")
  = Err (Exception (u "DeepInfra Server: Error boom")) /\
  _handle_status sample_llm 403 (u "boom")
  = Err (Exception (u "DeepInfra Server: Unauthorized")) /\
  _handle_status sample_llm 404 (u "boom")
  = Err (Exception (u "DeepInfra Server: Model not found meta-llama/Meta-Llama-3-70B-Instruct")) /\
  _handle_status sample_llm 429 (u "boom")
  = Err (Exception (u "DeepInfra Server: Rate limit exceeded")) /\
  _handle_status sample_llm 422 (u "boom")
  = Err (ValueError (u "DeepInfra received an invalid payload: boom")) /\
  _handle_status sample_llm 302 (u "boom")
  = Err (Exception (u "DeepInfra returned an unexpected response with status 302: boom")) /\
  _handle_status sample_llm 200 (u "boom") = Ok tt.
Proof.
  split; [apply (handle_status_precedence sample_llm 500 (u "boom")); lia|].
  split; [apply (handle_status_precedence sample_llm 403 (u "boom"));
          right; reflexivity|].
  split; [apply (handle_status_precedence sample_llm 404 (u "boom"));
          reflexivity|].
  split; [apply (handle_status_precedence sample_llm 429 (u "boom"));
          reflexivity|].
  split; [apply (handle_status_precedence sample_llm 422 (u "boom")); lia|].
  split; [apply (handle_status_precedence sample_llm 302 (u "boom")); lia|].
  apply (handle_status_precedence sample_llm 200 (u "boom")); reflexivity.
Defined.

(** C1 (as stated) fails: the outcome for 403 is the very outcome for 401,
    so no reading of the outcomes can tell Forbidden from Unauthorized as
    the specification's table does. *)
Lemma handle_status_forbidden_is_unauthorized :
  classify_spec 401 = Unauthorized /\
  classify_spec 403 = Forbidden /\
  _handle_status sample_llm 403 (u "denied")
  = _handle_status sample_llm 401 (u "denied") /\
  ~ (exists tag : PyResult unit -> OutcomeClassification,
        forall c, tag (_handle_status sample_llm c (u "denied"))
                  = classify_spec c).
Proof.
  split; [reflexivity|]. split; [reflexivity|]. split; [reflexivity|].
  intros [tag H].
  pose proof (H 401) as H1. pose proof (H 403) as H3.
  change (_handle_status sample_llm 403 (u "denied"))
    with (_handle_status sample_llm 401 (u "denied")) in H3.
  rewrite H1 in H3. discriminate H3.
Qed.

(* ================================================================== *)
(** ** Strings, bytes and UTF-8: auxiliary facts *)
(* ================================================================== *)

Lemma pystr_eqb_eq (x y : pystr) : pystr_eqb x y = true <-> x = y.
Proof.
  revert y; induction x as [|c x IH]; intros [|d y]; simpl;
    try (split; [discriminate | discriminate]); try tauto.
  rewrite andb_true_iff, N.eqb_eq, IH.
  split; [intros [-> ->]; reflexivity | intros E; inversion E; auto].
Qed.

Lemma pystr_eqb_refl (x : pystr) : pystr_eqb x x = true.
Proof. apply pystr_eqb_eq; reflexivity. Qed.

Lemma pystr_eqb_neq (x y : pystr) : pystr_eqb x y = false <-> x <> y.
Proof.
  rewrite <- pystr_eqb_eq. destruct (pystr_eqb x y); split; congruence.
Qed.

Lemma bytes_eqb_eq (x y : bytes) : bytes_eqb x y = true <-> x = y.
Proof.
  revert y; induction x as [|c x IH]; intros [|d y]; simpl;
    try (split; [discriminate | discriminate]); try tauto.
  rewrite andb_true_iff, IH.
  split.
  - intros [E ->]. apply Byte.byte_dec_bl in E. subst; reflexivity.
  - intros E; inversion E; subst. split; [apply Byte.byte_dec_lb|]; auto.
Qed.

Lemma bytes_eqb_neq (x y : bytes) : bytes_eqb x y = false <-> x <> y.
Proof.
  rewrite <- bytes_eqb_eq. destruct (bytes_eqb x y); split; congruence.
Qed.

Lemma bytes_lstrip_app (w x : bytes) :
  Forall (fun c => is_bytes_space c = true) w ->
  bytes_lstrip (w ++ x) = bytes_lstrip x.
Proof.
  induction 1 as [|c w Hc _ IH]; simpl; [reflexivity|].
  rewrite Hc. exact IH.
Qed.

(** White space around the sentinel is removed by [strip]. *)
Lemma bytes_strip_DONE (w1 w2 : bytes) :
  Forall (fun c => is_bytes_space c = true) w1 ->
  Forall (fun c => is_bytes_space c = true) w2 ->
  bytes_strip (w1 ++ b "[DONE]" ++ w2) = b "[DONE]".
Proof.
  intros H1 H2. unfold bytes_strip, bytes_rstrip.
  rewrite bytes_lstrip_app by assumption.
  change (bytes_lstrip (b "[DONE]" ++ w2)) with (b "[DONE]" ++ w2).
  rewrite rev_app_distr, bytes_lstrip_app by (apply Forall_rev; assumption).
  reflexivity.
Qed.

Local Open Scope N_scope.

Lemma divmod64 (a d : N) :
  d < 64 -> (a * 64 + d) / 64 = a /\ (a * 64 + d) mod 64 = d.
Proof.
  intros Hd. split; symmetry.
  - apply N.div_unique with (r := d); lia.
  - apply N.mod_unique with (q := a); lia.
Qed.

Lemma byte_of_to_N (c : byte) : byte_of_N (Byte.to_N c) = c.
Proof. unfold byte_of_N. rewrite Byte.of_to_N. reflexivity. Qed.

Lemma is_cont_spec (n : N) : is_cont n = true <-> 128 <= n <= 191.
Proof.
  unfold is_cont. rewrite andb_true_iff, !N.leb_le. tauto.
Qed.

Lemma encode1 (c0 : byte) :
  Byte.to_N c0 < 128 -> utf8_encode_cp (Byte.to_N c0) = [c0].
Proof.
  intros H. unfold utf8_encode_cp.
  apply N.ltb_lt in H. rewrite H, byte_of_to_N. reflexivity.
Qed.

Lemma encode2 (c0 c1 : byte) :
  194 <= Byte.to_N c0 <= 223 -> 128 <= Byte.to_N c1 <= 191 ->
  utf8_encode_cp ((Byte.to_N c0 - 192) * 64 + (Byte.to_N c1 - 128))
  = [c0; c1].
Proof.
  intros H0 H1.
  set (a := Byte.to_N c0 - 192). set (d := Byte.to_N c1 - 128).
  assert (Hd : d < 64) by (unfold d; lia).
  destruct (divmod64 a d Hd) as [Q R].
  unfold utf8_encode_cp.
  replace (a * 64 + d <? 128) with false
    by (symmetry; apply N.ltb_ge; unfold a; lia).
  replace (a * 64 + d <? 2048) with true
    by (symmetry; apply N.ltb_lt; unfold a; lia).
  rewrite Q, R.
  replace (192 + a) with (Byte.to_N c0) by (unfold a; lia).
  replace (128 + d) with (Byte.to_N c1) by (unfold d; lia).
  rewrite !byte_of_to_N. reflexivity.
Qed.

Lemma encode3 (c0 c1 c2 : byte) :
  224 <= Byte.to_N c0 <= 239 ->
  lo3 (Byte.to_N c0) <= Byte.to_N c1 <= hi3 (Byte.to_N c0) ->
  128 <= Byte.to_N c2 <= 191 ->
  utf8_encode_cp ((Byte.to_N c0 - 224) * 4096 + (Byte.to_N c1 - 128) * 64
                  + (Byte.to_N c2 - 128))
  = [c0; c1; c2].
Proof.
  intros H0 H1 H2.
  assert (B1 : 128 <= Byte.to_N c1 <= 191 /\
               (Byte.to_N c0 = 224 -> 160 <= Byte.to_N c1)).
  { unfold lo3, hi3 in H1.
    destruct (N.eqb_spec (Byte.to_N c0) 224), (N.eqb_spec (Byte.to_N c0) 237);
      lia. }
  destruct B1 as [B1 B1'].
  set (a := Byte.to_N c0 - 224). set (d1 := Byte.to_N c1 - 128).
  set (d2 := Byte.to_N c2 - 128).
  assert (Hd1 : d1 < 64) by (unfold d1; lia).
  assert (Hd2 : d2 < 64) by (unfold d2; lia).
  replace (a * 4096 + d1 * 64 + d2) with ((a * 64 + d1) * 64 + d2) by lia.
  destruct (divmod64 (a * 64 + d1) d2 Hd2) as [Q2 R2].
  destruct (divmod64 a d1 Hd1) as [Q1 R1].
  unfold utf8_encode_cp.
  replace ((a * 64 + d1) * 64 + d2 <? 128) with false
    by (symmetry; apply N.ltb_ge; unfold a, d1; lia).
  replace ((a * 64 + d1) * 64 + d2 <? 2048) with false
    by (symmetry; apply N.ltb_ge; unfold a, d1; lia).
  replace ((a * 64 + d1) * 64 + d2 <? 65536) with true
    by (symmetry; apply N.ltb_lt; unfold a; lia).
  change 4096 with (64 * 64). rewrite <- N.Div0.div_div.
  rewrite Q2, R2, Q1, R1.
  replace (224 + a) with (Byte.to_N c0) by (unfold a; lia).
  replace (128 + d1) with (Byte.to_N c1) by (unfold d1; lia).
  replace (128 + d2) with (Byte.to_N c2) by (unfold d2; lia).
  rewrite !byte_of_to_N. reflexivity.
Qed.

Lemma encode4 (c0 c1 c2 c3 : byte) :
  240 <= Byte.to_N c0 <= 244 ->
  lo4 (Byte.to_N c0) <= Byte.to_N c1 <= hi4 (Byte.to_N c0) ->
  128 <= Byte.to_N c2 <= 191 ->
  128 <= Byte.to_N c3 <= 191 ->
  utf8_encode_cp ((Byte.to_N c0 - 240) * 262144 + (Byte.to_N c1 - 128) * 4096
                  + (Byte.to_N c2 - 128) * 64 + (Byte.to_N c3 - 128))
  = [c0; c1; c2; c3].
Proof.
  intros H0 H1 H2 H3.
  assert (B1 : 128 <= Byte.to_N c1 <= 191 /\
               (Byte.to_N c0 = 240 -> 144 <= Byte.to_N c1)).
  { unfold lo4, hi4 in H1.
    destruct (N.eqb_spec (Byte.to_N c0) 240), (N.eqb_spec (Byte.to_N c0) 244);
      lia. }
  destruct B1 as [B1 B1'].
  set (a := Byte.to_N c0 - 240). set (d1 := Byte.to_N c1 - 128).
  set (d2 := Byte.to_N c2 - 128). set (d3 := Byte.to_N c3 - 128).
  assert (Hd1 : d1 < 64) by (unfold d1; lia).
  assert (Hd2 : d2 < 64) by (unfold d2; lia).
  assert (Hd3 : d3 < 64) by (unfold d3; lia).
  replace (a * 262144 + d1 * 4096 + d2 * 64 + d3)
    with (((a * 64 + d1) * 64 + d2) * 64 + d3) by lia.
  destruct (divmod64 ((a * 64 + d1) * 64 + d2) d3 Hd3) as [Q3 R3].
  destruct (divmod64 (a * 64 + d1) d2 Hd2) as [Q2 R2].
  destruct (divmod64 a d1 Hd1) as [Q1 R1].
  unfold utf8_encode_cp.
  replace (((a * 64 + d1) * 64 + d2) * 64 + d3 <? 128) with false
    by (symmetry; apply N.ltb_ge; unfold a, d1; lia).
  replace (((a * 64 + d1) * 64 + d2) * 64 + d3 <? 2048) with false
    by (symmetry; apply N.ltb_ge; unfold a, d1; lia).
  replace (((a * 64 + d1) * 64 + d2) * 64 + d3 <? 65536) with false
    by (symmetry; apply N.ltb_ge; unfold a, d1; lia).
  change 262144 with (64 * 4096). rewrite <- (N.Div0.div_div _ 64 4096).
  change 4096 with (64 * 64). rewrite <- !(N.Div0.div_div _ 64 64).
  rewrite Q3, R3, Q2, R2, Q1, R1.
  replace (240 + a) with (Byte.to_N c0) by (unfold a; lia).
  replace (128 + d1) with (Byte.to_N c1) by (unfold d1; lia).
  replace (128 + d2) with (Byte.to_N c2) by (unfold d2; lia).
  replace (128 + d3) with (Byte.to_N c3) by (unfold d3; lia).
  rewrite !byte_of_to_N. reflexivity.
Qed.

(** Decoding loses nothing: the text that [decode] returns encodes back to
    the very bytes it was read from. *)
Lemma utf8_decode_encode_le (n : nat) :
  forall (x : bytes) (s : pystr),
    (List.length x <= n)%nat -> utf8_decode x = Some s -> utf8_encode s = x.
Proof.
  induction n as [|n IH]; intros x s Hlen H.
  - destruct x; [|simpl in Hlen; lia]. injection H as <-. reflexivity.
  - destruct x as [|c0 r0]; [injection H as <-; reflexivity|].
    cbn [utf8_decode] in H. simpl in Hlen.
    destruct (N.ltb_spec (Byte.to_N c0) 128) as [L0|L0].
    { decoded H E. cbn [utf8_encode flat_map].
      rewrite encode1 by assumption.
      change (flat_map utf8_encode_cp t) with (utf8_encode t).
      rewrite (IH r0 t) by (assumption || lia). reflexivity. }
    destruct r0 as [|c1 r1]; [discriminate H|]. simpl in Hlen.
    destruct ((194 <=? Byte.to_N c0) && (Byte.to_N c0 <=? 223)) eqn:T2.
    { apply andb_true_iff in T2. rewrite !N.leb_le in T2.
      destruct (is_cont (Byte.to_N c1)) eqn:C1; [|discriminate H].
      apply is_cont_spec in C1.
      decoded H E. cbn [utf8_encode flat_map].
      rewrite encode2 by assumption.
      change (flat_map utf8_encode_cp t) with (utf8_encode t).
      rewrite (IH r1 t) by (assumption || lia). reflexivity. }
    destruct r1 as [|c2 r2]; [discriminate H|]. simpl in Hlen.
    destruct ((224 <=? Byte.to_N c0) && (Byte.to_N c0 <=? 239)) eqn:T3.
    { apply andb_true_iff in T3. rewrite !N.leb_le in T3.
      destruct ((lo3 (Byte.to_N c0) <=? Byte.to_N c1)
                && (Byte.to_N c1 <=? hi3 (Byte.to_N c0))
                && is_cont (Byte.to_N c2)) eqn:C; [|discriminate H].
      rewrite !andb_true_iff, !N.leb_le, is_cont_spec in C.
      destruct C as [C1 C2].
      decoded H E. cbn [utf8_encode flat_map].
      rewrite encode3 by assumption.
      change (flat_map utf8_encode_cp t) with (utf8_encode t).
      rewrite (IH r2 t) by (assumption || lia). reflexivity. }
    destruct r2 as [|c3 r3]; [discriminate H|]. simpl in Hlen.
    destruct ((240 <=? Byte.to_N c0) && (Byte.to_N c0 <=? 244)) eqn:T4;
      [|discriminate H].
    apply andb_true_iff in T4. rewrite !N.leb_le in T4.
    destruct ((lo4 (Byte.to_N c0) <=? Byte.to_N c1)
              && (Byte.to_N c1 <=? hi4 (Byte.to_N c0))
              && is_cont (Byte.to_N c2) && is_cont (Byte.to_N c3)) eqn:C;
      [|discriminate H].
    rewrite !andb_true_iff, !N.leb_le, !is_cont_spec in C.
    destruct C as [[C1 C2] C3].
    decoded H E. cbn [utf8_encode flat_map].
    rewrite encode4 by assumption.
    change (flat_map utf8_encode_cp t) with (utf8_encode t).
    rewrite (IH r3 t) by (assumption || lia). reflexivity.
Qed.

Lemma utf8_decode_encode (x : bytes) (s : pystr) :
  utf8_decode x = Some s -> utf8_encode s = x.
Proof. apply (utf8_decode_encode_le (List.length x)). apply le_n. Qed.

(* ================================================================== *)
(** ** The stream line decoder *)
(* ================================================================== *)

Lemma b_data : b "data:" = [x64; x61; x74; x61; x3a].
Proof. reflexivity. Qed.

Lemma b_data_space : b "data: " = [x64; x61; x74; x61; x3a; x20].
Proof. reflexivity. Qed.

Lemma b_space : b " " = [x20].
Proof. reflexivity. Qed.

(** What the decoder does with a data line, from its remainder. *)
Lemma parse_stream_helper_data_line (line rest : bytes) :
  data_line line rest ->
  _parse_stream_helper line
  = if bytes_eqb (bytes_strip rest) (b "[DONE]") then Ok None
    else match utf8_decode rest with
         | Some s => Ok (Some s)
         | None => Err UnicodeDecodeError
         end.
Proof.
  intros [-> | [-> Hsp]]; unfold _parse_stream_helper;
    rewrite ?b_data, ?b_data_space.
  - reflexivity.
  - rewrite b_space in Hsp.
    change (bytes_startswith [x64; x61; x74; x61; x3a; x20]
              ([x64; x61; x74; x61; x3a] ++ rest))
      with (bytes_startswith [x20] rest).
    rewrite Hsp. reflexivity.
Qed.

Lemma data_line_startswith (line : bytes) :
  bytes_startswith (b "data:") line = true <->
  exists rest, data_line line rest.
Proof.
  split.
  - rewrite b_data. intros H.
    destruct line as [|c0 [|c1 [|c2 [|c3 [|c4 rest]]]]];
      simpl in H; try discriminate H;
      try (rewrite ?andb_false_r in H; discriminate H).
    rewrite !andb_true_iff in H.
    destruct H as (H0 & H1 & H2 & H3 & H4 & _).
    apply Byte.byte_dec_bl in H0, H1, H2, H3, H4. subst.
    destruct (bytes_startswith (b " ") rest) eqn:Hsp.
    + destruct rest as [|c rest']; [discriminate Hsp|].
      rewrite b_space in Hsp. simpl in Hsp.
      rewrite andb_true_r in Hsp. apply Byte.byte_dec_bl in Hsp. subst c.
      exists rest'. left. reflexivity.
    + exists rest. right. split; [reflexivity | assumption].
  - intros [rest [-> | [-> _]]]; reflexivity.
Qed.

Lemma data_line_functional (line r1 r2 : bytes) :
  data_line line r1 -> data_line line r2 -> r1 = r2.
Proof.
  unfold data_line. rewrite b_space, b_data, b_data_space.
  intros [E1 | [E1 S1]] [E2 | [E2 S2]]; subst line;
    simpl in E2; injection E2 as E2; subst; try reflexivity;
    simpl in *; discriminate.
Qed.




(** C10 (as the code has it): on a data line whose remainder is the
    sentinel surrounded by any white space the decoder yields nothing; on a
    data line whose remainder is not the sentinel and is valid UTF-8 it
    yields a text whose UTF-8 encoding is the whole remainder, byte for
    byte: only the data prefix is removed and the white space around the
    payload is kept. *)
Theorem parse_stream_helper_keeps_whitespace (line rest : bytes) :
  data_line line rest ->
  (forall w1 w2, all_space w1 -> all_space w2 ->
     rest = w1 ++ b "[DONE]" ++ w2 -> _parse_stream_helper line = Ok None) /\
  (bytes_strip rest <> b "[DONE]" ->
   forall s, utf8_decode rest = Some s ->
             _parse_stream_helper line = Ok (Some s) /\ utf8_encode s = rest).
Proof.
  intros D. rewrite (parse_stream_helper_data_line line rest D). split.
  - intros w1 w2 H1 H2 ->. rewrite bytes_strip_DONE by assumption.
    reflexivity.
  - intros E s Hs. apply bytes_eqb_neq in E. rewrite E, Hs.
    split; [reflexivity | apply utf8_decode_encode; assumption].
Qed.

Lemma parse_stream_helper_keeps_whitespace_witness :
  data_line (jb "data:   {'a': 1} ") (jb "  {'a': 1} ") /\
  _parse_stream_helper (jb "data:   {'a': 1} ") = Ok (Some (j "  {'a': 1} ")) /\
  utf8_encode (j "  {'a': 1} ") = jb "  {'a': 1} ".
Proof.
  split; [left; reflexivity|].
  apply (parse_stream_helper_keeps_whitespace
           (jb "data:   {'a': 1} ") (jb "  {'a': 1} "));
    [left; reflexivity | vm_compute; discriminate | reflexivity].
Defined.

(** C10 (as stated) fails: a data line that is not the sentinel and whose
    remainder stops in the middle of a UTF-8 sequence yields nothing; the
    decoder raises. *)
Lemma parse_stream_helper_truncated_sequence :
  data_line (b "data:" ++ [xe2; x82]) [xe2; x82] /\
  bytes_strip [xe2; x82] <> b "[DONE]" /\
  _parse_stream_helper (b "data:" ++ [xe2; x82]) = Err UnicodeDecodeError /\
  ~ (forall line rest,
       data_line line rest -> bytes_strip rest <> b "[DONE]" ->
       exists s, _parse_stream_helper line = Ok (Some s)).
Proof.
  split; [right; split; reflexivity|].
  split; [vm_compute; discriminate|].
  split; [reflexivity|].
  intros H.
  destruct (H (b "data:" ++ [xe2; x82]) [xe2; x82]) as [s Hs].
  - right; split; reflexivity.
  - vm_compute; discriminate.
  - vm_compute in Hs. discriminate Hs.
Qed.

(* ================================================================== *)
(** ** The JSON decoder: progress and sufficiency of the fuel *)
(* ================================================================== *)

Local Open Scope nat_scope.

Lemma skip_ws_length (s : pystr) :
  List.length (skip_ws s) <= List.length s.
Proof.
  induction s as [|c r IH]; simpl; [lia|].
  destruct (is_json_ws c); simpl; lia.
Qed.

Lemma str_startswith_length (p s : pystr) :
  str_startswith p s = true -> List.length p <= List.length s.
Proof.
  revert s; induction p as [|c p IH]; intros [|d s] H; simpl in *;
    try lia; try discriminate H.
  apply andb_true_iff in H. destruct H as [_ H]. apply IH in H. lia.
Qed.

Lemma skipn_shorter (p s : pystr) :
  str_startswith p s = true -> 0 < List.length p ->
  List.length (skipn (List.length p) s) < List.length s.
Proof.
  intros H Hp. apply str_startswith_length in H.
  rewrite length_skipn. lia.
Qed.

Lemma prepend_inv (c : N) (r : option (pystr * pystr)) (t rest : pystr) :
  prepend c r = Some (t, rest) ->
  exists t', r = Some (t', rest) /\ t = c :: t'.
Proof.
  destruct r as [[t' rest']|]; simpl; [|discriminate].
  intros E; injection E as <- <-. eauto.
Qed.

Lemma scanstring_length_le (n : nat) :
  forall s t rest,
    List.length s <= n -> scanstring s = Some (t, rest) ->
    List.length rest < List.length s.
Proof.
  induction n as [|n IH]; intros s t rest Hlen H.
  - destruct s; [discriminate H | simpl in Hlen; lia].
  - destruct s as [|c r]; [discriminate H|].
    cbn [scanstring] in H. simpl in Hlen |- *.
    destruct (N.eqb c 34); [injection H as <- <-; lia|].
    destruct (N.eqb c 92).
    + destruct r as [|e r']; [discriminate H|]. simpl in Hlen |- *.
      destruct (N.eqb e 117).
      * destruct r' as [|h1 [|h2 [|h3 [|h4 r'']]]]; try discriminate H.
        simpl in Hlen |- *.
        destruct (hex4 h1 h2 h3 h4) as [cp|]; [|discriminate H].
        assert (Plain : forall t0, prepend cp (scanstring r'') = Some (t0, rest)
                                   -> List.length rest < S (S (S (S (S (S (List.length r''))))))).
        { intros t0 E. apply prepend_inv in E. destruct E as (t' & E & _).
          apply IH in E; lia. }
        destruct r'' as [|bs [|uu [|g1 [|g2 [|g3 [|g4 r3]]]]]];
          try (apply Plain in H; exact H).
        destruct (is_high_surrogate cp && N.eqb bs 92 && N.eqb uu 117);
          [|apply Plain in H; exact H].
        destruct (hex4 g1 g2 g3 g4) as [lo|]; [|discriminate H].
        destruct (is_low_surrogate lo); [|apply Plain in H; exact H].
        apply prepend_inv in H. destruct H as (t' & E & _).
        simpl in Hlen |- *. apply IH in E; lia.
      * destruct (escape_char e) as [ch|]; [|discriminate H].
        apply prepend_inv in H. destruct H as (t' & E & _).
        apply IH in E; lia.
    + destruct (N.ltb c 32); [discriminate H|].
      apply prepend_inv in H. destruct H as (t' & E & _).
      apply IH in E; lia.
Qed.

Lemma scanstring_length (s t rest : pystr) :
  scanstring s = Some (t, rest) -> List.length rest < List.length s.
Proof. apply (scanstring_length_le (List.length s)). apply le_n. Qed.

Lemma span_digits_length (s : pystr) :
  List.length (snd (span_digits s)) <= List.length s.
Proof.
  induction s as [|c r IH]; simpl; [lia|].
  destruct (is_digit c); [|simpl; lia].
  destruct (span_digits r) as [ds rest]. simpl in *. lia.
Qed.

Lemma scan_frac_length (s : pystr) :
  List.length (snd (scan_frac s)) <= List.length s.
Proof.
  unfold scan_frac. destruct s as [|dot [|d r]]; simpl; try lia.
  destruct (N.eqb dot 46 && is_digit d); [|simpl; lia].
  pose proof (span_digits_length r).
  destruct (span_digits r) as [ds rest]. simpl in *. lia.
Qed.

Lemma scan_exp_length (s : pystr) :
  List.length (snd (scan_exp s)) <= List.length s.
Proof.
  unfold scan_exp. destruct s as [|e [|d r]]; simpl; try lia.
  destruct (N.eqb e 101 || N.eqb e 69); [|simpl; lia].
  destruct (is_digit d).
  - pose proof (span_digits_length r).
    destruct (span_digits r) as [ds rest]. simpl in *. lia.
  - destruct (N.eqb d 43 || N.eqb d 45); [|simpl; lia].
    destruct r as [|d' r']; [simpl; lia|].
    destruct (is_digit d'); [|simpl; lia].
    pose proof (span_digits_length r').
    destruct (span_digits r') as [ds rest]. simpl in *. lia.
Qed.

Lemma match_number_length (s : pystr) (v : PyVal) (rest : pystr) :
  match_number s = Some (v, rest) -> List.length rest < List.length s.
Proof.
  unfold match_number. intros H.
  set (p := match s with
            | [] => (false, s)
            | c :: r => if N.eqb c 45 then (true, r) else (false, s)
            end) in H.
  assert (Hp : List.length (snd p) <= List.length s).
  { subst p. destruct s as [|c r]; simpl; [lia|].
    destruct (N.eqb c 45); simpl; lia. }
  destruct p as [neg s1]. simpl in Hp.
  destruct s1 as [|d r]; [discriminate H|].
  destruct (is_digit d); [|discriminate H].
  set (q := if N.eqb d 48 then ([d], r)
            else let (ds, rest0) := span_digits r in (d :: ds, rest0)) in H.
  assert (Hq : List.length (snd q) <= List.length r).
  { subst q. destruct (N.eqb d 48); simpl; [lia|].
    pose proof (span_digits_length r).
    destruct (span_digits r) as [ds rest0]. simpl in *. lia. }
  destruct q as [ip r1]. simpl in Hq.
  pose proof (scan_frac_length r1) as Hf.
  destruct (scan_frac r1) as [fp r2]. simpl in Hf.
  pose proof (scan_exp_length r2) as He.
  destruct (scan_exp r2) as [ep r3]. simpl in He.
  simpl in Hp.
  destruct fp, ep; injection H as <- <-; lia.
Qed.

Lemma scan_atom_length (s : pystr) (v : PyVal) (rest : pystr) :
  scan_atom s = Some (v, rest) -> List.length rest < List.length s.
Proof.
  unfold scan_atom. intros H.
  repeat match type of H with
         | (if str_startswith ?p s then _ else _) = _ =>
           let E := fresh "E" in
           destruct (str_startswith p s) eqn:E;
             [injection H as <- <-;
              apply (skipn_shorter p s E); simpl; lia|]
         end.
  apply match_number_length in H. exact H.
Qed.

(** Every successful scan consumes at least one character. *)
Lemma scan_progress (fuel : nat) :
  (forall s v rest, scan_once fuel s = Scanned v rest ->
                    List.length rest < List.length s) /\
  (forall s vs rest, parse_items fuel s = Scanned vs rest ->
                     List.length rest < List.length s) /\
  (forall s kvs rest, parse_members fuel s = Scanned kvs rest ->
                      List.length rest < List.length s).
Proof.
  induction fuel as [|f (IHv & IHi & IHm)];
    [repeat split; intros; discriminate|].
  repeat split.
  - intros s v rest H. cbn [scan_once] in H.
    destruct s as [|c r]; [discriminate H|].
    destruct (N.eqb c 34).
    { destruct (scanstring r) as [[t r0]|] eqn:Q; [|discriminate H].
      apply scanstring_length in Q.
      injection H as <- <-. simpl; lia. }
    destruct (N.eqb c 123).
    { pose proof (skip_ws_length r) as W.
      destruct (skip_ws r) as [|c1 r1]; [discriminate H|].
      destruct (N.eqb c1 125); [injection H as <- <-; simpl in *; lia|].
      destruct (parse_members f (c1 :: r1)) eqn:M; try discriminate H.
      injection H as <- <-. apply IHm in M. simpl in *; lia. }
    destruct (N.eqb c 91).
    { pose proof (skip_ws_length r) as W.
      destruct (skip_ws r) as [|c1 r1]; [discriminate H|].
      destruct (N.eqb c1 93); [injection H as <- <-; simpl in *; lia|].
      destruct (parse_items f (c1 :: r1)) eqn:M; try discriminate H.
      injection H as <- <-. apply IHi in M. simpl in *; lia. }
    destruct (scan_atom (c :: r)) as [[v0 r0]|] eqn:A; [|discriminate H].
    apply scan_atom_length in A. injection H as <- <-. exact A.
  - intros s vs rest H. cbn [parse_items] in H.
    destruct (scan_once f s) as [v r0| |] eqn:V; try discriminate H.
    apply IHv in V.
    pose proof (skip_ws_length r0) as W.
    destruct (skip_ws r0) as [|c r]; [discriminate H|].
    destruct (N.eqb c 93); [injection H as <- <-; simpl in *; lia|].
    destruct (N.eqb c 44); [|discriminate H].
    pose proof (skip_ws_length r).
    destruct (parse_items f (skip_ws r)) eqn:M; try discriminate H.
    injection H as <- <-. apply IHi in M. simpl in *; lia.
  - intros s kvs rest H. cbn [parse_members] in H.
    destruct s as [|q r]; [discriminate H|].
    destruct (N.eqb q 34); [|discriminate H].
    destruct (scanstring r) as [[key r1]|] eqn:Q; [|discriminate H].
    apply scanstring_length in Q.
    pose proof (skip_ws_length r1).
    destruct (skip_ws r1) as [|colon r2]; [discriminate H|].
    destruct (N.eqb colon 58); [|discriminate H].
    pose proof (skip_ws_length r2).
    destruct (scan_once f (skip_ws r2)) as [v r0| |] eqn:V;
      try discriminate H.
    apply IHv in V.
    pose proof (skip_ws_length r0).
    destruct (skip_ws r0) as [|c r3]; [discriminate H|].
    destruct (N.eqb c 125); [injection H as <- <-; simpl in *; lia|].
    destruct (N.eqb c 44); [|discriminate H].
    pose proof (skip_ws_length r3).
    destruct (parse_members f (skip_ws r3)) eqn:M; try discriminate H.
    injection H as <- <-. apply IHm in M. simpl in *; lia.
Qed.

(** With more fuel than twice the length of the input, the scan never runs
    out of fuel. *)
Lemma scan_fuel (fuel : nat) :
  (forall s, 2 * List.length s < fuel -> scan_once fuel s <> Exhausted) /\
  (forall s, 2 * List.length s + 1 < fuel ->
             parse_items fuel s <> Exhausted) /\
  (forall s, 2 * List.length s + 1 < fuel ->
             parse_members fuel s <> Exhausted).
Proof.
  induction fuel as [|f (IHv & IHi & IHm)];
    [repeat split; intros; lia|].
  destruct (scan_progress f) as (Pv & Pi & Pm).
  repeat split.
  - intros s Hf. cbn [scan_once].
    destruct s as [|c r]; [discriminate|]. simpl in Hf.
    destruct (N.eqb c 34).
    { destruct (scanstring r) as [[t r0]|]; discriminate. }
    destruct (N.eqb c 123).
    { pose proof (skip_ws_length r) as W.
      destruct (skip_ws r) as [|c1 r1]; [discriminate|].
      destruct (N.eqb c1 125); [discriminate|].
      pose proof (IHm (c1 :: r1)) as M.
      destruct (parse_members f (c1 :: r1)); try discriminate.
      intros _. apply M; [simpl in *; lia | reflexivity]. }
    destruct (N.eqb c 91).
    { pose proof (skip_ws_length r) as W.
      destruct (skip_ws r) as [|c1 r1]; [discriminate|].
      destruct (N.eqb c1 93); [discriminate|].
      pose proof (IHi (c1 :: r1)) as M.
      destruct (parse_items f (c1 :: r1)); try discriminate.
      intros _. apply M; [simpl in *; lia | reflexivity]. }
    destruct (scan_atom (c :: r)) as [[v0 r0]|]; discriminate.
  - intros s Hf. cbn [parse_items].
    pose proof (IHv s) as V. pose proof (Pv s) as P.
    destruct (scan_once f s) as [v r0| |];
      [|discriminate | intros _; apply V; [lia | reflexivity]].
    specialize (P v r0 eq_refl).
    pose proof (skip_ws_length r0) as W.
    destruct (skip_ws r0) as [|c r]; [discriminate|].
    destruct (N.eqb c 93); [discriminate|].
    destruct (N.eqb c 44); [|discriminate].
    pose proof (skip_ws_length r) as W'.
    pose proof (IHi (skip_ws r)) as M.
    destruct (parse_items f (skip_ws r)); try discriminate.
    intros _. apply M; [simpl in *; lia | reflexivity].
  - intros s Hf. cbn [parse_members].
    destruct s as [|q r]; [discriminate|]. simpl in Hf.
    destruct (N.eqb q 34); [|discriminate].
    destruct (scanstring r) as [[key r1]|] eqn:Q; [|discriminate].
    apply scanstring_length in Q.
    pose proof (skip_ws_length r1) as W1.
    destruct (skip_ws r1) as [|colon r2]; [discriminate|].
    destruct (N.eqb colon 58); [|discriminate].
    pose proof (skip_ws_length r2) as W2.
    pose proof (IHv (skip_ws r2)) as V. pose proof (Pv (skip_ws r2)) as P.
    destruct (scan_once f (skip_ws r2)) as [v r0| |];
      [|discriminate | intros _; apply V; [simpl in *; lia | reflexivity]].
    specialize (P v r0 eq_refl).
    pose proof (skip_ws_length r0) as W0.
    destruct (skip_ws r0) as [|c r3]; [discriminate|].
    destruct (N.eqb c 125); [discriminate|].
    destruct (N.eqb c 44); [|discriminate].
    pose proof (skip_ws_length r3) as W3.
    pose proof (IHm (skip_ws r3)) as M.
    destruct (parse_members f (skip_ws r3)); try discriminate.
    intros _. apply M; [simpl in *; lia | reflexivity].
Qed.

(** The fuel that [json_loads] gives is enough: a refusal by [json_loads]
    is a refusal of the text, never a lack of fuel. *)
Lemma scan_once_fuel (s : pystr) :
  scan_once (json_fuel s) (skip_ws s) <> Exhausted.
Proof.
  apply scan_fuel. unfold json_fuel.
  pose proof (skip_ws_length s). lia.
Qed.

Example json_loads_token :
  json_loads (j "{ 'token' : {'text':'a\n\u00e9'}, 'n': [1, -2.5e3, true, null] }")
  = Ok (PyDict [(u "token", PyDict [(u "text", PyStr [97; 10; 233]%N)]);
                (u "n", PyList [PyInt 1; PyFloat (u "-2.5e3"); PyBool true;
                                PyNone])]).
Proof. vm_compute. reflexivity. Qed.

Example json_loads_refuses :
  json_loads (j "{not json") = Err JSONDecodeError /\
  json_loads (j "{'a': 1,}") = Err JSONDecodeError /\
  json_loads (j "[1 2]") = Err JSONDecodeError /\
  json_loads (j "{'a': 1} x") = Err JSONDecodeError /\
  json_loads (j "") = Err JSONDecodeError.
Proof. repeat split. Qed.

Example json_loads_repeated_key :
  json_loads (j "{'a': 1, 'b': 2, 'a': 3}")
  = Ok (PyDict [(u "a", PyInt 3); (u "b", PyInt 2)]).
Proof. vm_compute. reflexivity. Qed.

(* ================================================================== *)
(** ** The SSE event interpreter *)
(* ================================================================== *)

(** C9: the interpreter is total and never raises.  Whatever the line, it
    returns a chunk or no chunk; when decoding the JSON text fails, when the
    decoded value or its [token] member has no [get] method, or when the
    chunk cannot be built from the text found, the exception is caught and
    the result is no chunk. *)
Theorem handle_sse_line_never_raises (line : pystr) :
  (exists r, _handle_sse_line line = Ok r) /\
  (forall e, json_loads line = Err e -> _handle_sse_line line = Ok None) /\
  (forall obj e,
     json_loads line = Ok obj ->
     py_get obj (u "token") (PyDict []) = Err e ->
     _handle_sse_line line = Ok None) /\
  (forall obj token e,
     json_loads line = Ok obj ->
     py_get obj (u "token") (PyDict []) = Ok token ->
     py_get token (u "text") PyNone = Err e ->
     _handle_sse_line line = Ok None) /\
  (forall obj token text e,
     json_loads line = Ok obj ->
     py_get obj (u "token") (PyDict []) = Ok token ->
     py_get token (u "text") PyNone = Ok text ->
     GenerationChunk.make text = Err e ->
     _handle_sse_line line = Ok None).
Proof.
  unfold _handle_sse_line.
  split; [|split; [|split; [|split]]].
  - destruct (json_loads line) as [obj|e]; simpl; [|eauto].
    destruct (py_get obj (u "token") (PyDict [])) as [token|e]; simpl;
      [|eauto].
    destruct (py_get token (u "text") PyNone) as [text|e]; simpl; [|eauto].
    destruct (GenerationChunk.make text) as [chunk|e]; simpl; eauto.
  - intros e ->. reflexivity.
  - intros obj e -> H. simpl. rewrite H. reflexivity.
  - intros obj token e -> H1 H2. simpl. rewrite H1. simpl. rewrite H2.
    reflexivity.
  - intros obj token text e -> H1 H2 H3. simpl. rewrite H1. simpl.
    rewrite H2. simpl. rewrite H3. reflexivity.
Qed.

Lemma handle_sse_line_never_raises_witness :
  _handle_sse_line (j "{not json") = Ok None /\
  _handle_sse_line (j "[1]") = Ok None /\
  _handle_sse_line (j "{'token': 5}") = Ok None /\
  _handle_sse_line (j "{'token': {'text': 7}}") = Ok None.
Proof.
  split.
  { destruct (handle_sse_line_never_raises (j "{not json")) as (_ & H & _).
    apply (H JSONDecodeError). reflexivity. }
  split.
  { destruct (handle_sse_line_never_raises (j "[1]")) as (_ & _ & H & _).
    apply (H (PyList [PyInt 1]) AttributeError); reflexivity. }
  split.
  { destruct (handle_sse_line_never_raises (j "{'token': 5}"))
      as (_ & _ & _ & H & _).
    apply (H (PyDict [(u "token", PyInt 5)]) (PyInt 5) AttributeError);
      reflexivity. }
  destruct (handle_sse_line_never_raises (j "{'token': {'text': 7}}"))
    as (_ & _ & _ & _ & H).
  apply (H (PyDict [(u "token", PyDict [(u "text", PyInt 7)])])
           (PyDict [(u "text", PyInt 7)]) (PyInt 7) ValidationError);
    reflexivity.
Defined.

(** C5: for a line that decodes to a JSON object in which the [token]
    member is absent, or is an object without a [text] member, the
    interpreter returns a chunk whose text is absent. *)
Theorem handle_sse_line_missing_text (line : pystr) (d : PyDictT) :
  json_loads line = Ok (PyDict d) ->
  (dict_get (u "token") d = None \/
   exists d', dict_get (u "token") d = Some (PyDict d') /\
              dict_get (u "text") d' = None) ->
  _handle_sse_line line = Ok (Some (GenerationChunk.Build None)).
Proof.
  intros Hj [H | (d' & H & H')]; unfold _handle_sse_line;
    rewrite Hj; simpl; rewrite H; simpl; [reflexivity|].
  rewrite H'. reflexivity.
Qed.

Lemma handle_sse_line_missing_text_witness :
  _handle_sse_line (j "{'id': 7}") = Ok (Some (GenerationChunk.Build None)) /\
  _handle_sse_line (j "{'token': {'id': 7}}")
  = Ok (Some (GenerationChunk.Build None)).
Proof.
  split.
  - apply (handle_sse_line_missing_text (j "{'id': 7}") [(u "id", PyInt 7)]);
      [reflexivity | left; reflexivity].
  - apply (handle_sse_line_missing_text (j "{'token': {'id': 7}}")
             [(u "token", PyDict [(u "id", PyInt 7)])]);
      [reflexivity|].
    right. exists [(u "id", PyInt 7)]. split; reflexivity.
Defined.

(* ================================================================== *)
(** ** The streaming loop *)
(* ================================================================== *)

Lemma run_from_Yield {Y A} (w : World) (seen : list (option pystr))
  (y : Y) (k : Gen Y A) :
  run_from w seen (Yield y k)
  = (Yielded y :: fst (run_from w seen k), snd (run_from w seen k)).
Proof. simpl. destruct (run_from w seen k). reflexivity. Qed.

Lemma run_from_OnToken {Y A} (w : World) (seen : list (option pystr))
  (t : option pystr) (k : Gen Y A) :
  run_from w seen (OnToken t k)
  = match on_llm_new_token w seen t with
    | Ok _ => (Notified t :: fst (run_from w (t :: seen) k),
               snd (run_from w (t :: seen) k))
    | Err e => ([Notified t], Err e)
    end.
Proof.
  simpl. destruct (on_llm_new_token w seen t); [|reflexivity].
  destruct (run_from w (t :: seen) k). reflexivity.
Qed.

Lemma parse_stream_async_eq (rbody : list bytes) :
  _parse_stream_async rbody = _parse_stream rbody.
Proof.
  induction rbody as [|line rbody IH]; simpl; [reflexivity|].
  rewrite IH. reflexivity.
Qed.

Lemma loop_unfold (rm : option CallbackManagerForLLMRun) (line : bytes)
  (lines : list bytes) :
  loop rm (line :: lines)
  = match _parse_stream_helper line with
    | Err e => Raise e
    | Ok None => loop rm lines
    | Ok (Some l) =>
      match _handle_sse_line l with
      | Err e => Raise e
      | Ok None => loop rm lines
      | Ok (Some c) =>
        match rm with
        | Some _ => OnToken (GenerationChunk.text c) (Yield c (loop rm lines))
        | None => Yield c (loop rm lines)
        end
      end
    end.
Proof.
  cbn [_parse_stream].
  destruct (_parse_stream_helper line) as [[l|]|e]; simpl; try reflexivity.
  destruct (_handle_sse_line l) as [[c|]|e]; simpl; try reflexivity.
  destruct rm; reflexivity.
Qed.

(** A line that the interpreter turns into no chunk leaves no trace in the
    loop. *)
Lemma loop_skip (rm : option CallbackManagerForLLMRun)
  (pre post : list bytes) (bad : bytes) (payload : pystr) :
  _parse_stream_helper bad = Ok (Some payload) ->
  _handle_sse_line payload = Ok None ->
  loop rm (pre ++ bad :: post) = loop rm (pre ++ post).
Proof.
  intros Hb Hp. induction pre as [|line pre IH].
  - cbn [app]. rewrite loop_unfold, Hb, Hp. reflexivity.
  - cbn [app]. rewrite !loop_unfold, IH. reflexivity.
Qed.

(** The loop talks to the observer only. *)
Lemma run_from_loop_world (w w' : World)
  (rm : option CallbackManagerForLLMRun) (lines : list bytes) :
  on_llm_new_token w = on_llm_new_token w' ->
  forall seen, run_from w seen (loop rm lines)
               = run_from w' seen (loop rm lines).
Proof.
  intros Hobs. induction lines as [|line lines IH]; intros seen;
    [reflexivity|].
  rewrite loop_unfold.
  destruct (_parse_stream_helper line) as [[l|]|e]; try reflexivity;
    [|apply IH].
  destruct (_handle_sse_line l) as [[c|]|e]; try reflexivity; [|apply IH].
  destruct rm.
  - rewrite !run_from_OnToken, <- Hobs.
    destruct (on_llm_new_token w seen (GenerationChunk.text c));
      [|reflexivity].
    rewrite !run_from_Yield, IH. reflexivity.
  - rewrite !run_from_Yield, IH. reflexivity.
Qed.

Lemma loop_sent (w : World) (rm : option CallbackManagerForLLMRun)
  (lines : list bytes) :
  forall seen, sent (fst (run_from w seen (loop rm lines))) = [].
Proof.
  induction lines as [|line lines IH]; intros seen; [reflexivity|].
  rewrite loop_unfold.
  destruct (_parse_stream_helper line) as [[l|]|e]; try reflexivity;
    [|apply IH].
  destruct (_handle_sse_line l) as [[c|]|e]; try reflexivity; [|apply IH].
  destruct rm.
  - rewrite run_from_OnToken.
    destruct (on_llm_new_token w seen (GenerationChunk.text c));
      [|reflexivity].
    rewrite run_from_Yield. simpl. apply IH.
  - rewrite run_from_Yield. simpl. apply IH.
Qed.


(** What a synchronous streaming call does, step by step. *)
Lemma stream_run (w : World) (self : DeepInfra) (prompt : pystr)
  (stop : option (list pystr)) (rm : option CallbackManagerForLLMRun)
  (kwargs : PyDictT) :
  run w (_stream self prompt stop rm kwargs)
  = let rq := streaming_request self prompt kwargs in
    match post w rq with
    | Err e => ([Sent rq], Err e)
    | Ok resp =>
      if str_contains (u "error") (Response.text resp) then
        ([Sent rq],
         Err (Exception (u "DeepInfra Server: " ++ Response.text resp)))
      else
        match _handle_status self (Response.status_code resp)
                             (Response.text resp) with
        | Err e => ([Sent rq], Err e)
        | Ok _ =>
          (Sent rq
           :: fst (run_from w [] (loop rm (Response.iter_lines resp))),
           snd (run_from w [] (loop rm (Response.iter_lines resp))))
        end
    end.
Proof.
  unfold run, _stream, streaming_request. cbn [run_from].
  destruct (post w _) as [resp|e]; [|reflexivity].
  destruct (str_contains (u "error") (Response.text resp)); [reflexivity|].
  destruct (_handle_status self (Response.status_code resp)
                           (Response.text resp)) as [[]|e];
    [|reflexivity].
  cbn [liftR bind].
  destruct (run_from w [] _). reflexivity.
Qed.

(** What an asynchronous streaming call does, step by step. *)
Lemma astream_run (w : World) (self : DeepInfra) (prompt : pystr)
  (stop : option (list pystr)) (rm : option CallbackManagerForLLMRun)
  (kwargs : PyDictT) :
  run w (_astream self prompt stop rm kwargs)
  = let rq := streaming_request self prompt kwargs in
    match apost w rq with
    | Err e => ([Sent rq], Err e)
    | Ok resp =>
      if str_contains (u "error") (ClientResponse.text resp) then
        ([Sent rq],
         Err (Exception (u "DeepInfra Server: " ++ ClientResponse.text resp)))
      else
        match _handle_status self (ClientResponse.status resp)
                             (ClientResponse.text_repr resp) with
        | Err e => ([Sent rq], Err e)
        | Ok _ =>
          (Sent rq
           :: fst (run_from w [] (loop rm (ClientResponse.content resp))),
           snd (run_from w [] (loop rm (ClientResponse.content resp))))
        end
    end.
Proof.
  unfold run, _astream, streaming_request. cbn [run_from].
  destruct (apost w _) as [resp|e]; [|reflexivity].
  destruct (str_contains (u "error") (ClientResponse.text resp));
    [reflexivity|].
  destruct (_handle_status self (ClientResponse.status resp)
                           (ClientResponse.text_repr resp)) as [[]|e];
    [|reflexivity].
  cbn [liftR bind]. rewrite parse_stream_async_eq.
  destruct (run_from w [] _). reflexivity.
Qed.

(* ================================================================== *)
(** ** Errors embedded in a streaming response *)
(* ================================================================== *)

(** C3: when the body text of the response to a streaming call, synchronous
    or asynchronous, contains [error], the call sends its request and then
    raises the embedded-error exception with the body text: nothing is
    yielded, the observer is not notified, and the status code plays no
    part, whatever it is. *)
Theorem stream_embedded_error (w : World) (self : DeepInfra) (prompt : pystr)
  (stop : option (list pystr)) (rm : option CallbackManagerForLLMRun)
  (kwargs : PyDictT) :
  (forall resp,
     post w (streaming_request self prompt kwargs) = Ok resp ->
     str_contains (u "error") (Response.text resp) = true ->
     run w (_stream self prompt stop rm kwargs)
     = ([Sent (streaming_request self prompt kwargs)],
        Err (Exception (u "DeepInfra Server: " ++ Response.text resp)))) /\
  (forall resp,
     apost w (streaming_request self prompt kwargs) = Ok resp ->
     str_contains (u "error") (ClientResponse.text resp) = true ->
     run w (_astream self prompt stop rm kwargs)
     = ([Sent (streaming_request self prompt kwargs)],
        Err (Exception (u "DeepInfra Server: " ++ ClientResponse.text resp)))).
Proof.
  split; intros resp Hp He.
  - rewrite stream_run. cbv zeta. rewrite Hp, He. reflexivity.
  - rewrite astream_run. cbv zeta. rewrite Hp, He. reflexivity.
Qed.

Lemma stream_embedded_error_witness :
  run (answering offline error_response error_aresponse)
      (_stream sample_llm (u "hi") None (Some callback_manager) [])
  = ([Sent (streaming_request sample_llm (u "hi") [])],
     Err (Exception (j "DeepInfra Server: {'error':'bad model'}"))) /\
  run (answering offline error_response error_aresponse)
      (_astream sample_llm (u "hi") None (Some callback_manager) [])
  = ([Sent (streaming_request sample_llm (u "hi") [])],
     Err (Exception (j "DeepInfra Server: {'error':'bad model'}"))).
Proof.
  destruct (stream_embedded_error
              (answering offline error_response error_aresponse)
              sample_llm (u "hi") None (Some callback_manager) [])
    as [Hs Ha].
  split.
  - exact (Hs error_response eq_refl eq_refl).
  - exact (Ha error_aresponse eq_refl eq_refl).
Defined.

(* ================================================================== *)
(** ** Lines that give no chunk *)
(* ================================================================== *)

Lemma handle_sse_line_body (line : pystr) :
  _handle_sse_line line = try_except_Exception (sse_line_body line) (Ok None).
Proof. reflexivity. Qed.

Lemma sse_line_body_failure (line : pystr) :
  (exists e, json_loads line = Err e) \/
  (exists e, sse_line_body line = Err e) ->
  _handle_sse_line line = Ok None.
Proof.
  rewrite handle_sse_line_body.
  intros [[e H] | [e H]].
  - unfold sse_line_body. rewrite H. reflexivity.
  - rewrite H. reflexivity.
Qed.

(** Two responses that pass the check of the body and get the same outcome
    from status classification, and whose lines give the same loop, give
    the same synchronous streaming call. *)
Lemma stream_same_loop (w : World) (self : DeepInfra) (prompt : pystr)
  (stop : option (list pystr)) (rm : option CallbackManagerForLLMRun)
  (kwargs : PyDictT) (st : Z) (txt1 txt2 : pystr) (l1 l2 : list bytes)
  (a1 a2 : ClientResponse.t) :
  loop rm l1 = loop rm l2 ->
  str_contains (u "error") txt1 = false ->
  str_contains (u "error") txt2 = false ->
  _handle_status self st txt1 = _handle_status self st txt2 ->
  run (answering w (Response.Build st txt1 l1) a1)
      (_stream self prompt stop rm kwargs)
  = run (answering w (Response.Build st txt2 l2) a2)
        (_stream self prompt stop rm kwargs).
Proof.
  intros E H1 H2 Hs. rewrite !stream_run. cbv zeta.
  cbn [post answering Response.text Response.status_code
       Response.iter_lines].
  rewrite H1, H2, Hs.
  destruct (_handle_status self st txt2); [|reflexivity].
  rewrite E.
  rewrite (run_from_loop_world
             (answering w (Response.Build st txt1 l1) a1)
             (answering w (Response.Build st txt2 l2) a2))
    by reflexivity.
  reflexivity.
Qed.

(** The same for the asynchronous streaming call. *)
Lemma astream_same_loop (w : World) (self : DeepInfra) (prompt : pystr)
  (stop : option (list pystr)) (rm : option CallbackManagerForLLMRun)
  (kwargs : PyDictT) (st : Z) (txt1 txt2 repr1 repr2 : pystr)
  (js1 js2 : PyResult PyVal) (l1 l2 : list bytes) (r1 r2 : Response.t) :
  loop rm l1 = loop rm l2 ->
  str_contains (u "error") txt1 = false ->
  str_contains (u "error") txt2 = false ->
  _handle_status self st repr1 = _handle_status self st repr2 ->
  run (answering w r1 (ClientResponse.Build st txt1 l1 js1 repr1))
      (_astream self prompt stop rm kwargs)
  = run (answering w r2 (ClientResponse.Build st txt2 l2 js2 repr2))
        (_astream self prompt stop rm kwargs).
Proof.
  intros E H1 H2 Hs. rewrite !astream_run. cbv zeta.
  cbn [apost answering ClientResponse.text ClientResponse.status
       ClientResponse.text_repr ClientResponse.content].
  rewrite H1, H2, Hs.
  destruct (_handle_status self st repr2); [|reflexivity].
  rewrite E.
  rewrite (run_from_loop_world
             (answering w r1 (ClientResponse.Build st txt1 l1 js1 repr1))
             (answering w r2 (ClientResponse.Build st txt2 l2 js2 repr2)))
    by reflexivity.
  reflexivity.
Qed.

(** C4 (as the code has it): for a decoded data line that is not valid
    JSON the interpreter returns no chunk rather than raising, and so it
    does for every other exception that interpreting the line raises (a
    value or a [token] without a [get] method, a chunk that cannot be
    built): all are swallowed in the same way.  In a streaming call,
    synchronous or asynchronous, whose response has status 200 and whose
    body text does not hold [error], such a line does not abort the
    sequence: the call runs exactly as for the response without the line,
    whose own body text need not be the same, so the lines after it still
    yield their chunks.  (A body text that holds [error], be it inside the
    malformed line, ends the call before any line is read.) *)
Theorem malformed_line_is_skipped (payload : pystr) :
  ((exists e, json_loads payload = Err e) \/
   (exists e, sse_line_body payload = Err e)) ->
  _handle_sse_line payload = Ok None /\
  (forall w self prompt stop rm kwargs txt txt' pre rest bad aresp aresp',
     _parse_stream_helper bad = Ok (Some payload) ->
     str_contains (u "error") txt = false ->
     str_contains (u "error") txt' = false ->
     run (answering w (Response.Build 200 txt (pre ++ bad :: rest)) aresp)
         (_stream self prompt stop rm kwargs)
     = run (answering w (Response.Build 200 txt' (pre ++ rest)) aresp')
           (_stream self prompt stop rm kwargs)) /\
  (forall w self prompt stop rm kwargs txt txt' repr repr' js js' pre rest
          bad resp resp',
     _parse_stream_helper bad = Ok (Some payload) ->
     str_contains (u "error") txt = false ->
     str_contains (u "error") txt' = false ->
     run (answering w resp
            (ClientResponse.Build 200 txt (pre ++ bad :: rest) js repr))
         (_astream self prompt stop rm kwargs)
     = run (answering w resp'
              (ClientResponse.Build 200 txt' (pre ++ rest) js' repr'))
           (_astream self prompt stop rm kwargs)).
Proof.
  intros H. pose proof (sse_line_body_failure payload H) as Hn.
  split; [exact Hn|]. split.
  - intros w self prompt stop rm kwargs txt txt' pre rest bad aresp aresp'
           Hb H1 H2.
    apply stream_same_loop;
      [apply (loop_skip rm pre rest bad payload Hb Hn) | exact H1 | exact H2
       | reflexivity].
  - intros w self prompt stop rm kwargs txt txt' repr repr' js js' pre rest
           bad resp resp' Hb H1 H2.
    apply astream_same_loop;
      [apply (loop_skip rm pre rest bad payload Hb Hn) | exact H1 | exact H2
       | reflexivity].
Qed.

Lemma malformed_line_is_skipped_witness :
  _handle_sse_line (j "{not json") = Ok None /\
  _handle_sse_line (j "{'token': 5}") = Ok None /\
  run (answering offline
         (Response.Build 200 malformed_text
            ([jb "data: {'token':{'text':'a'}}"]
             ++ jb "data: {not json" :: [jb "data: {'token':{'text':'b'}}"]))
         error_aresponse)
      (_stream sample_llm (u "hi") None None [])
  = ([Sent (streaming_request sample_llm (u "hi") []);
      Yielded (GenerationChunk.Build (Some (u "a")));
      Yielded (GenerationChunk.Build (Some (u "b")))], Ok tt).
Proof.
  destruct (malformed_line_is_skipped (j "{not json")) as (H1 & H2 & _).
  { left. exists JSONDecodeError. reflexivity. }
  destruct (malformed_line_is_skipped (j "{'token': 5}")) as (H3 & _).
  { right. exists AttributeError. reflexivity. }
  split; [exact H1|]. split; [exact H3|].
  rewrite (H2 offline sample_llm (u "hi") None None []
              malformed_text wellformed_text
              [jb "data: {'token':{'text':'a'}}"]
              [jb "data: {'token':{'text':'b'}}"]
              (jb "data: {not json") error_aresponse error_aresponse
              eq_refl eq_refl eq_refl).
  reflexivity.
Defined.

(** A malformed line that holds the word [error] does end the call, through
    the check of the body text that comes before the loop: the response
    with the line raises before any chunk, the response without it
    delivers its chunk. *)
Example malformed_error_line_aborts :
  str_contains (u "error") (Response.text malformed_error_response) = true /\
  _handle_sse_line (j "{'error") = Ok None /\
  run (answering offline malformed_error_response error_aresponse)
      (_stream sample_llm (u "hi") None None [])
  = ([Sent (streaming_request sample_llm (u "hi") [])],
     Err (Exception
            (u "DeepInfra Server: "
             ++ Response.text malformed_error_response))) /\
  run (answering offline
         (Response.Build 200 (j "data: {'token':{'text':'b'}}")
                         [jb "data: {'token':{'text':'b'}}"])
         error_aresponse)
      (_stream sample_llm (u "hi") None None [])
  = ([Sent (streaming_request sample_llm (u "hi") []);
      Yielded (GenerationChunk.Build (Some (u "b")))], Ok tt).
Proof. repeat split. Qed.

(** C4 (as stated) fails: a JSON parse failure is not the only failure that
    the interpreter swallows.  The line [[1]] is valid JSON, interpreting it
    fails for lack of a [get] method, and the interpreter returns no chunk
    all the same. *)
Lemma swallowed_without_parse_failure :
  json_loads (j "[1]") = Ok (PyList [PyInt 1]) /\
  py_get (PyList [PyInt 1]) (u "token") (PyDict []) = Err AttributeError /\
  _handle_sse_line (j "[1]") = Ok None /\
  ~ (forall line, _handle_sse_line line = Ok None ->
                  exists e, json_loads line = Err e).
Proof.
  split; [reflexivity|]. split; [reflexivity|]. split; [reflexivity|].
  intros H. destruct (H (j "[1]") eq_refl) as [e He].
  vm_compute in He. discriminate He.
Qed.

(* ================================================================== *)
(** ** The observer *)
(* ================================================================== *)






(* ================================================================== *)
(** ** The blocking call *)
(* ================================================================== *)

Lemma run_from_liftR {Y A} (w : World) (seen : list (option pystr))
  (r : PyResult A) :
  run_from w seen (@liftR Y A r) = ([], r).
Proof. destruct r; reflexivity. Qed.

Lemma bind_liftR {Y A B} (r : PyResult A) (f : A -> PyResult B) :
  bind (@liftR Y A r) (fun a => liftR (f a)) = liftR (bindR r f).
Proof. destruct r; reflexivity. Qed.

Lemma call_run (w : World) (self : DeepInfra) (prompt : pystr)
  (stop : option (list pystr)) (rm : option CallbackManagerForLLMRun)
  (kwargs : PyDictT) :
  run w (_call self prompt stop rm kwargs)
  = let rq := blocking_request self prompt kwargs in
    match post w rq with
    | Err e => ([Sent rq], Err e)
    | Ok resp =>
      ([Sent rq],
       bindR (_handle_status self (Response.status_code resp)
                             (Response.text resp)) (fun _ =>
       bindR (Response.json resp) (fun data => lookups data)))
    end.
Proof.
  unfold run, _call, blocking_request. cbn [run_from].
  destruct (post w _) as [resp|e]; [|reflexivity].
  destruct (_handle_status self (Response.status_code resp)
                           (Response.text resp)) as [[]|e];
    [|reflexivity].
  destruct (Response.json resp) as [data|e]; [|reflexivity].
  cbn [liftR bind bindR].
  destruct (py_getitem data (KStr (u "results"))) as [results|e];
    [|reflexivity].
  cbn [liftR bind bindR].
  destruct (py_getitem results (KInt 0)) as [first|e]; [|reflexivity].
  cbn [liftR bind bindR].
  rewrite run_from_liftR. reflexivity.
Qed.

Lemma acall_run (w : World) (self : DeepInfra) (prompt : pystr)
  (stop : option (list pystr)) (rm : option CallbackManagerForLLMRun)
  (kwargs : PyDictT) :
  run w (_acall self prompt stop rm kwargs)
  = let rq := blocking_request self prompt kwargs in
    match apost w rq with
    | Err e => ([Sent rq], Err e)
    | Ok resp =>
      ([Sent rq],
       bindR (_handle_status self (ClientResponse.status resp)
                             (ClientResponse.text_repr resp)) (fun _ =>
       bindR (ClientResponse.json resp) (fun data => lookups data)))
    end.
Proof.
  unfold run, _acall, blocking_request. cbn [run_from].
  destruct (apost w _) as [resp|e]; [|reflexivity].
  destruct (_handle_status self (ClientResponse.status resp)
                           (ClientResponse.text_repr resp)) as [[]|e];
    [|reflexivity].
  destruct (ClientResponse.json resp) as [data|e]; [|reflexivity].
  cbn [liftR bind bindR].
  destruct (py_getitem data (KStr (u "results"))) as [results|e];
    [|reflexivity].
  cbn [liftR bind bindR].
  destruct (py_getitem results (KInt 0)) as [first|e]; [|reflexivity].
  cbn [liftR bind bindR].
  rewrite run_from_liftR. reflexivity.
Qed.

Lemma handle_status_errors (self : DeepInfra) (c : Z) (t : pystr)
  (e : PyExc) :
  _handle_status self c t = Err e -> status_error e = true.
Proof.
  unfold _handle_status.
  repeat match goal with
         | |- context [if ?x then _ else _] => destruct x
         end; intros H; try discriminate H; injection H as <-; reflexivity.
Qed.

Lemma not_a_status_error (self : DeepInfra) (e : PyExc) :
  status_error e = false -> forall c t, _handle_status self c t <> Err e.
Proof.
  intros He c t H. apply handle_status_errors in H. congruence.
Qed.

Lemma json_loads_error (s : pystr) (e : PyExc) :
  json_loads s = Err e -> e = JSONDecodeError.
Proof.
  unfold json_loads. intros H.
  repeat match type of H with
         | match ?x with _ => _ end = _ => destruct x; try discriminate H
         end; injection H as <-; reflexivity.
Qed.

(** The look-ups of the code follow the path of the specification: they
    give the value at the path when there is one, and otherwise fail with
    a look-up error. *)
Lemma lookups_path (data : PyVal) :
  match generated_text_path data with
  | Some v => lookups data = Ok v
  | None => lookups data = Err KeyError \/ lookups data = Err IndexError \/
            lookups data = Err TypeError
  end.
Proof.
  destruct data as [| | | | |l|d]; simpl; auto.
  destruct (dict_get (u "results") d) as [results|]; simpl; auto.
  destruct results as [| | | |s|l|d']; simpl; auto.
  - destruct s as [|c s]; simpl; auto.
  - destruct l as [|first l]; simpl; auto.
    destruct first as [| | | | | |d1]; simpl; auto.
    destruct (dict_get (u "generated_text") d1); simpl; auto.
Qed.

(** C6: for a blocking call whose response has status 200, when the body
    decodes to JSON with a value at [results[0].generated_text] the call
    returns exactly that value; when the body decodes but the path cannot
    be followed, or the body is not JSON, the call raises an error of a
    class (a look-up error or a JSON decoding error) that status
    classification never raises. *)
Theorem call_returns_generated_text (w : World) (self : DeepInfra)
  (prompt : pystr) (stop : option (list pystr))
  (rm : option CallbackManagerForLLMRun) (kwargs : PyDictT)
  (resp : Response.t) :
  post w (blocking_request self prompt kwargs) = Ok resp ->
  Response.status_code resp = 200%Z ->
  (forall data v,
     json_loads (Response.text resp) = Ok data ->
     generated_text_path data = Some v ->
     snd (run w (_call self prompt stop rm kwargs)) = Ok v) /\
  (forall data,
     json_loads (Response.text resp) = Ok data ->
     generated_text_path data = None ->
     exists e,
       snd (run w (_call self prompt stop rm kwargs)) = Err e /\
       status_error e = false /\
       forall c t, _handle_status self c t <> Err e) /\
  (forall e0,
     json_loads (Response.text resp) = Err e0 ->
     exists e,
       snd (run w (_call self prompt stop rm kwargs)) = Err e /\
       status_error e = false /\
       forall c t, _handle_status self c t <> Err e).
Proof.
  intros Hp Hs. rewrite call_run. cbv zeta. rewrite Hp, Hs.
  unfold Response.json. cbn [snd _handle_status bindR].
  change (_handle_status self 200 (Response.text resp)) with (@Ok unit tt).
  cbn [bindR].
  split; [|split].
  - intros data v -> Hv. cbn [bindR].
    pose proof (lookups_path data) as L. rewrite Hv in L. exact L.
  - intros data -> Hv. cbn [bindR].
    pose proof (lookups_path data) as L. rewrite Hv in L.
    destruct L as [L | [L | L]]; rewrite L;
      eexists; (split; [reflexivity|]);
      (split; [reflexivity | apply not_a_status_error; reflexivity]).
  - intros e0 H. pose proof (json_loads_error _ _ H) as ->.
    rewrite H. cbn [bindR].
    exists JSONDecodeError. split; [reflexivity|].
    split; [reflexivity | apply not_a_status_error; reflexivity].
Qed.

Lemma call_returns_generated_text_witness :
  snd (run (answering offline hello_response error_aresponse)
           (_call sample_llm (u "hi") None None []))
  = Ok (PyStr (u "hello")).
Proof.
  destruct (call_returns_generated_text
              (answering offline hello_response error_aresponse)
              sample_llm (u "hi") None None [] hello_response
              eq_refl eq_refl) as (H & _).
  apply (H (PyDict [(u "results",
                     PyList [PyDict [(u "generated_text",
                                      PyStr (u "hello"))]])]));
    reflexivity.
Defined.

Example call_malformed_bodies :
  snd (run (answering offline (Response.Build 200 (j "{'results':[]}") [])
                      error_aresponse)
           (_call sample_llm (u "hi") None None [])) = Err IndexError /\
  snd (run (answering offline (Response.Build 200 (j "{'data':1}") [])
                      error_aresponse)
           (_call sample_llm (u "hi") None None [])) = Err KeyError /\
  snd (run (answering offline (Response.Build 200 (j "[1]") [])
                      error_aresponse)
           (_call sample_llm (u "hi") None None [])) = Err TypeError /\
  snd (run (answering offline (Response.Build 200 (j "<html>") [])
                      error_aresponse)
           (_call sample_llm (u "hi") None None [])) = Err JSONDecodeError /\
  snd (run (answering offline (Response.Build 404 (j "<html>") [])
                      error_aresponse)
           (_call sample_llm (u "hi") None None []))
  = Err (Exception (u "DeepInfra Server: Model not found meta-llama/Meta-Llama-3-70B-Instruct")).
Proof. repeat split. Qed.

(* ================================================================== *)
(** ** Dictionaries and the request body *)
(* ================================================================== *)

Lemma dict_get_set (k k' : pystr) (v : PyVal) (d : PyDictT) :
  dict_get k (dict_set k' v d)
  = if pystr_eqb k k' then Some v else dict_get k d.
Proof.
  induction d as [|[k1 v1] d IH]; simpl; [reflexivity|].
  destruct (pystr_eqb k' k1) eqn:E1; simpl.
  - apply pystr_eqb_eq in E1. subst k1.
    destruct (pystr_eqb k k'); reflexivity.
  - rewrite IH.
    destruct (pystr_eqb k k1) eqn:E2; [|reflexivity].
    apply pystr_eqb_eq in E2. subst k1.
    destruct (pystr_eqb k k') eqn:E3; [|reflexivity].
    apply pystr_eqb_eq in E3. subst k'.
    rewrite pystr_eqb_refl in E1. discriminate E1.
Qed.

Lemma dict_get_absent (k : pystr) (d : PyDictT) :
  ~ In k (map fst d) -> dict_get k d = None.
Proof.
  induction d as [|[k1 v1] d IH]; simpl; [reflexivity|].
  intros H. destruct (pystr_eqb k k1) eqn:E.
  - apply pystr_eqb_eq in E. subst. exfalso. apply H. left. reflexivity.
  - apply IH. intros I. apply H. right. exact I.
Qed.

Lemma dict_get_update (k : pystr) (e : PyDictT) :
  dict_wf e ->
  forall d, dict_get k (dict_update d e)
            = match dict_get k e with
              | Some v => Some v
              | None => dict_get k d
              end.
Proof.
  unfold dict_wf.
  induction e as [|[k1 v1] e IH]; intros W d; simpl; [reflexivity|].
  simpl in W. inversion W as [|? ? Hn Hw]; subst.
  rewrite (IH Hw), dict_get_set.
  destruct (pystr_eqb k k1) eqn:E; [|reflexivity].
  apply pystr_eqb_eq in E. subst k1.
  rewrite (dict_get_absent k e Hn). reflexivity.
Qed.

Lemma dict_set_keys (x k : pystr) (v : PyVal) (d : PyDictT) :
  In x (map fst (dict_set k v d)) -> x = k \/ In x (map fst d).
Proof.
  induction d as [|[k1 v1] d IH]; simpl.
  - intros [<- | []]. left. reflexivity.
  - destruct (pystr_eqb k k1) eqn:E; simpl.
    + apply pystr_eqb_eq in E. subst k1. intros [<- | H]; auto.
    + intros [<- | H]; [auto|]. apply IH in H. tauto.
Qed.

Lemma dict_set_wf (k : pystr) (v : PyVal) (d : PyDictT) :
  dict_wf d -> dict_wf (dict_set k v d).
Proof.
  unfold dict_wf.
  induction d as [|[k1 v1] d IH]; simpl; intros W.
  - constructor; [intros [] | constructor].
  - inversion W as [|? ? Hn Hw]; subst.
    destruct (pystr_eqb k k1) eqn:E; simpl.
    + apply pystr_eqb_eq in E. subst k1. constructor; assumption.
    + constructor; [|apply IH; assumption].
      intros H. apply dict_set_keys in H. destruct H as [-> | H]; [|auto].
      rewrite pystr_eqb_refl in E. discriminate E.
Qed.

Lemma dict_update_wf (e d : PyDictT) :
  dict_wf d -> dict_wf (dict_update d e).
Proof.
  revert d; induction e as [|[k1 v1] e IH]; intros d W; simpl; [exact W|].
  apply IH. apply dict_set_wf. exact W.
Qed.

Lemma dict_wf_nil : dict_wf [].
Proof. constructor. Qed.

(** [{**d, **e}]: the value of [e] wins. *)
Lemma dict_get_merge (k : pystr) (d e : PyDictT) :
  dict_wf d -> dict_wf e ->
  dict_get k (dict_merge d e)
  = match dict_get k e with
    | Some v => Some v
    | None => dict_get k d
    end.
Proof.
  intros Wd We. unfold dict_merge.
  rewrite (dict_get_update k e We), (dict_get_update k d Wd).
  destruct (dict_get k d); reflexivity.
Qed.

Lemma body_lookup (self : DeepInfra) (prompt : pystr) (kwargs : PyDictT)
  (k : pystr) :
  dict_wf kwargs -> dict_wf (configured self) ->
  dict_get k (_body self prompt kwargs)
  = match merged_param self kwargs k with
    | Some v => Some v
    | None => if pystr_eqb k (u "input") then Some (PyStr prompt) else None
    end.
Proof.
  intros Wk Wc. unfold _body, merged_param.
  change (match model_kwargs self with Some d => d | None => [] end)
    with (configured self).
  rewrite dict_get_update
    by (apply dict_update_wf, dict_update_wf, dict_wf_nil).
  rewrite (dict_get_merge k _ _ Wc Wk).
  destruct (dict_get k kwargs); [reflexivity|].
  destruct (dict_get k (configured self)); reflexivity.
Qed.

(** C7 (as the code has it): every call sends exactly one request, which
    does not depend on the [stop] argument.  In its body each key has the
    call-time value when the call gives one, else the configured value when
    there is one; the key [input] has the prompt when neither the call nor
    the configuration gives an [input] entry; and in the two streaming
    modes, and only there, [stream] is set to true over every other
    value. *)
Theorem request_body (w : World) (self : DeepInfra) (prompt : pystr)
  (stop : option (list pystr)) (rm : option CallbackManagerForLLMRun)
  (kwargs : PyDictT) (k : pystr) :
  dict_wf kwargs -> dict_wf (configured self) ->
  sent (fst (run w (_call self prompt stop rm kwargs)))
  = [blocking_request self prompt kwargs] /\
  sent (fst (run w (_acall self prompt stop rm kwargs)))
  = [blocking_request self prompt kwargs] /\
  sent (fst (run w (_stream self prompt stop rm kwargs)))
  = [streaming_request self prompt kwargs] /\
  sent (fst (run w (_astream self prompt stop rm kwargs)))
  = [streaming_request self prompt kwargs] /\
  dict_get k (data (blocking_request self prompt kwargs))
  = match merged_param self kwargs k with
    | Some v => Some v
    | None => if pystr_eqb k (u "input") then Some (PyStr prompt) else None
    end /\
  dict_get k (data (streaming_request self prompt kwargs))
  = if pystr_eqb k (u "stream") then Some (PyBool true)
    else match merged_param self kwargs k with
         | Some v => Some v
         | None =>
           if pystr_eqb k (u "input") then Some (PyStr prompt) else None
         end.
Proof.
  intros Wk Wc.
  split; [|split; [|split; [|split; [|split]]]].
  - rewrite call_run. cbv zeta. destruct (post w _); reflexivity.
  - rewrite acall_run. cbv zeta. destruct (apost w _); reflexivity.
  - rewrite stream_run. cbv zeta.
    destruct (post w _) as [resp|e]; [|reflexivity].
    destruct (str_contains _ _); [reflexivity|].
    destruct (_handle_status _ _ _); [|reflexivity].
    cbn [fst]. change (sent (Sent ?r :: ?tr)) with (r :: sent tr).
    rewrite loop_sent. reflexivity.
  - rewrite astream_run. cbv zeta.
    destruct (apost w _) as [resp|e]; [|reflexivity].
    destruct (str_contains _ _); [reflexivity|].
    destruct (_handle_status _ _ _); [|reflexivity].
    cbn [fst]. change (sent (Sent ?r :: ?tr)) with (r :: sent tr).
    rewrite loop_sent. reflexivity.
  - apply body_lookup; assumption.
  - unfold streaming_request. cbn [data].
    rewrite body_lookup
      by (try apply dict_set_wf; try apply dict_update_wf;
          try apply dict_wf_nil; assumption).
    unfold merged_param.
    rewrite dict_get_set, (dict_get_update k kwargs Wk).
    destruct (pystr_eqb k (u "stream")); [reflexivity|].
    destruct (dict_get k kwargs); reflexivity.
Qed.

Lemma request_body_witness :
  dict_get (u "temperature")
    (data (streaming_request
             {| model_id := DEFAULT_MODEL_ID;
                model_kwargs := Some [(u "temperature", PyInt 1);
                                      (u "top_k", PyInt 5)];
                deepinfra_api_token := None |}
             (u "hi") [(u "temperature", PyInt 2)]))
  = Some (PyInt 2) /\
  data (streaming_request
          {| model_id := DEFAULT_MODEL_ID;
             model_kwargs := Some [(u "temperature", PyInt 1);
                                   (u "top_k", PyInt 5)];
             deepinfra_api_token := None |}
          (u "hi") [(u "temperature", PyInt 2)])
  = [(u "input", PyStr (u "hi")); (u "temperature", PyInt 2);
     (u "top_k", PyInt 5); (u "stream", PyBool true)].
Proof.
  split; [|reflexivity].
  assert (W1 : dict_wf [(u "temperature", PyInt 2)]).
  { repeat constructor. intros []. }
  assert (W2 : dict_wf [(u "temperature", PyInt 1); (u "top_k", PyInt 5)]).
  { repeat constructor; simpl; intuition discriminate. }
  destruct (request_body offline
              {| model_id := DEFAULT_MODEL_ID;
                 model_kwargs := Some [(u "temperature", PyInt 1);
                                       (u "top_k", PyInt 5)];
                 deepinfra_api_token := None |}
              (u "hi") None None [(u "temperature", PyInt 2)]
              (u "temperature") W1 W2) as (_ & _ & _ & _ & _ & H).
  exact H.
Defined.

(** C7 (as stated) fails: [input] is not always the prompt.  With a
    configured [input] entry, the body carries that entry in place of the
    prompt. *)
Lemma body_input_overridden :
  dict_wf (configured input_llm) /\
  data (blocking_request input_llm (u "hi") [])
  = [(u "input", PyStr (u "x"))] /\
  ~ (forall self prompt kwargs,
       dict_wf kwargs -> dict_wf (configured self) ->
       dict_get (u "input") (data (blocking_request self prompt kwargs))
       = Some (PyStr prompt)).
Proof.
  assert (W : dict_wf (configured input_llm)).
  { repeat constructor. intros []. }
  split; [exact W|]. split; [reflexivity|].
  intros H. specialize (H input_llm (u "hi") [] dict_wf_nil W).
  vm_compute in H. discriminate H.
Qed.

(* ================================================================== *)
(** ** Examples from the specification *)
(* ================================================================== *)

(** The three lines of the decoder example, streamed without an observer:
    two chunks, [a] then [b], and a normal end. *)
Example stream_token_lines :
  run (answering offline token_response token_aresponse)
      (_stream sample_llm (u "hi") None None [])
  = ([Sent (streaming_request sample_llm (u "hi") []);
      Yielded (GenerationChunk.Build (Some (u "a")));
      Yielded (GenerationChunk.Build (Some (u "b")))], Ok tt) /\
  run (answering offline token_response token_aresponse)
      (_astream sample_llm (u "hi") None None [])
  = ([Sent (streaming_request sample_llm (u "hi") []);
      Yielded (GenerationChunk.Build (Some (u "a")));
      Yielded (GenerationChunk.Build (Some (u "b")))], Ok tt).
Proof. split; reflexivity. Qed.

(** An embedded error wins over a failing status: the check of the body
    comes before status classification. *)
Example stream_embedded_error_before_status :
  snd (run (answering offline
              (Response.Build 500 (j "{'error':'bad model'}") [])
              error_aresponse)
           (_stream sample_llm (u "hi") None None []))
  = Err (Exception (j "DeepInfra Server: {'error':'bad model'}")) /\
  snd (run (answering offline (Response.Build 500 (j "{'detail':'x'}") [])
                      error_aresponse)
           (_stream sample_llm (u "hi") None None []))
  = Err (Exception (j "DeepInfra Server: Error {'detail':'x'}")).
Proof. split; reflexivity. Qed.

(** The status table at the specification's sample codes; 418 lies between
    400 and 499 and is an invalid payload. *)
Example handle_status_examples :
  classify_spec 500 = ServerError /\ classify_spec 404 = NotFound /\
  classify_spec 429 = RateLimited /\ classify_spec 422 = InvalidPayload /\
  classify_spec 200 = Success /\ classify_spec 302 = UnexpectedStatus /\
  classify_spec 418 = InvalidPayload /\
  _handle_status sample_llm 418 (u "teapot")
  = Err (ValueError (u "DeepInfra received an invalid payload: teapot")).
Proof. repeat split. Qed.

(* ================================================================== *)
(** * Further properties of the module *)
(* ================================================================== *)

(** ** Status classification: success and error classes *)

Local Open Scope Z_scope.

Lemma handle_status_200 (self : DeepInfra) (c : Z) (t : pystr) :
  c <> 200 -> exists e, _handle_status self c t = Err e.
Proof.
  intros Hc. unfold _handle_status.
  repeat match goal with
         | |- context [?a >=? ?b] => rewrite (Z.geb_leb a b)
         | |- context [?a <=? ?b] => destruct (Z.leb_spec a b)
         | |- context [?a =? ?b] => destruct (Z.eqb_spec a b)
         end; simpl; try (eexists; reflexivity); lia.
Qed.

(** X1: status classification succeeds for the code 200 and for no other:
    every other code, the other 2xx codes included, raises. *)
Theorem handle_status_ok_iff (self : DeepInfra) (c : Z) (t : pystr) :
  _handle_status self c t = Ok tt <-> c = 200.
Proof.
  split.
  - intros H. destruct (Z.eq_dec c 200) as [E|E]; [exact E|].
    destruct (handle_status_200 self c t E) as [e He].
    rewrite He in H. discriminate H.
  - intros ->. reflexivity.
Qed.

(** X2: status classification raises a [ValueError] exactly for the codes
    from 400 to 499 other than 401, 403, 404 and 429; every other failure
    is a plain [Exception]. *)
Theorem handle_status_value_error_iff (self : DeepInfra) (c : Z)
  (t : pystr) :
  ((exists msg, _handle_status self c t = Err (ValueError msg)) <->
   (400 <= c <= 499 /\ c <> 401 /\ c <> 403 /\ c <> 404 /\ c <> 429)) /\
  (forall e, _handle_status self c t = Err e ->
             (exists msg, e = ValueError msg) \/ (exists msg, e = Exception msg)).
Proof.
  unfold _handle_status. split; [split|].
  - intros [msg Hv]. revert Hv. case_status; intros Hv; try discriminate Hv;
      lia.
  - intros (Hr & H1 & H3 & H4 & H9). case_status. eexists. reflexivity.
  - intros e. case_status; intros Hv; try discriminate Hv;
      injection Hv as <-; eauto.
Qed.

Lemma handle_status_value_error_iff_witness :
  (exists msg, _handle_status sample_llm 422 (u "bad") = Err (ValueError msg)) /\
  ((exists msg, ValueError (u "DeepInfra received an invalid payload: bad")
                = ValueError msg) \/
   (exists msg, ValueError (u "DeepInfra received an invalid payload: bad")
                = Exception msg)).
Proof.
  destruct (handle_status_value_error_iff sample_llm 422 (u "bad"))
    as [[_ H1] H2].
  split.
  - apply H1. lia.
  - apply H2. reflexivity.
Defined.

(* ------------------------------------------------------------------ *)
(** ** The request body: invariants *)

Lemma dict_set_head (k k1 : pystr) (v v1 : PyVal) (d : PyDictT) :
  exists v' d', dict_set k v ((k1, v1) :: d) = (k1, v') :: d'.
Proof.
  simpl. destruct (pystr_eqb k k1) eqn:E; [|eauto].
  apply pystr_eqb_eq in E. subst. eauto.
Qed.

Lemma dict_update_head (e : PyDictT) :
  forall (k1 : pystr) (v1 : PyVal) (d : PyDictT),
  exists v' d', dict_update ((k1, v1) :: d) e = (k1, v') :: d'.
Proof.
  induction e as [|[k v] e IH]; intros k1 v1 d; [simpl; eauto|].
  cbn [dict_update].
  destruct (dict_set_head k k1 v v1 d) as (v' & d' & ->). apply IH.
Qed.

(** X3: whatever the configured parameters and the call-time overrides,
    even with repeated entries, the request body is a well-formed
    dictionary (no key twice) whose first key is [input]. *)
Theorem body_invariants (self : DeepInfra) (prompt : pystr)
  (kwargs : PyDictT) :
  dict_wf (_body self prompt kwargs) /\
  (exists v rest, _body self prompt kwargs = (u "input", v) :: rest) /\
  dict_wf (data (streaming_request self prompt kwargs)) /\
  (exists v rest,
      data (streaming_request self prompt kwargs) = (u "input", v) :: rest).
Proof.
  assert (W : dict_wf [(u "input", PyStr prompt)]).
  { constructor; [intros [] | constructor]. }
  unfold streaming_request, _body. cbn [data].
  repeat split;
    try (apply dict_update_wf; exact W); apply dict_update_head.
Qed.

Example body_with_repeated_overrides :
  _body input_llm (u "hi")
        [(u "top_k", PyInt 1); (u "top_k", PyInt 2); (u "seed", PyInt 7)]
  = [(u "input", PyStr (u "x")); (u "top_k", PyInt 2); (u "seed", PyInt 7)].
Proof. reflexivity. Qed.

(* ------------------------------------------------------------------ *)
(** ** The root validator *)

(** X4: when the token is found, validation returns the values with the
    token stored under [deepinfra_api_token], every other key keeping its
    value and well-formedness being kept; when the lookup of the token
    raises, validation raises the same error. *)
Theorem validate_environment_sets_token
  (get_from_dict_or_env : PyDictT -> pystr -> pystr -> PyResult PyVal)
  (values : PyDictT) :
  (forall token,
     get_from_dict_or_env values (u "deepinfra_api_token")
                          (u "DEEPINFRA_API_TOKEN") = Ok token ->
     exists values',
       validate_environment get_from_dict_or_env values = Ok values' /\
       dict_get (u "deepinfra_api_token") values' = Some token /\
       (forall k, k <> u "deepinfra_api_token" ->
                  dict_get k values' = dict_get k values) /\
       (dict_wf values -> dict_wf values')) /\
  (forall e,
     get_from_dict_or_env values (u "deepinfra_api_token")
                          (u "DEEPINFRA_API_TOKEN") = Err e ->
     validate_environment get_from_dict_or_env values = Err e).
Proof.
  unfold validate_environment. split.
  - intros token ->. cbn [bindR]. eexists. split; [reflexivity|].
    split; [|split].
    + rewrite dict_get_set, pystr_eqb_refl. reflexivity.
    + intros k Hk. rewrite dict_get_set.
      apply pystr_eqb_neq in Hk. rewrite Hk. reflexivity.
    + apply dict_set_wf.
  - intros e ->. reflexivity.
Qed.

Lemma validate_environment_sets_token_witness :
  validate_environment
    (fun values key env =>
       match dict_get key values with
       | Some v => Ok v
       | None => Err (ValueError (u "Did not find deepinfra_api_token"))
       end)
    [(u "model_id", PyStr (u "m")); (u "deepinfra_api_token", PyStr (u "k"))]
  = Ok [(u "model_id", PyStr (u "m")); (u "deepinfra_api_token", PyStr (u "k"))]
  /\
  validate_environment
    (fun values key env =>
       match dict_get key values with
       | Some v => Ok v
       | None => Err (ValueError (u "Did not find deepinfra_api_token"))
       end)
    [(u "model_id", PyStr (u "m"))]
  = Err (ValueError (u "Did not find deepinfra_api_token")).
Proof.
  split.
  - destruct (validate_environment_sets_token
                (fun values key env =>
                   match dict_get key values with
                   | Some v => Ok v
                   | None =>
                     Err (ValueError (u "Did not find deepinfra_api_token"))
                   end)
                [(u "model_id", PyStr (u "m"));
                 (u "deepinfra_api_token", PyStr (u "k"))]) as [H _].
    destruct (H (PyStr (u "k")) eq_refl) as (values' & E & _).
    reflexivity.
  - destruct (validate_environment_sets_token
                (fun values key env =>
                   match dict_get key values with
                   | Some v => Ok v
                   | None =>
                     Err (ValueError (u "Did not find deepinfra_api_token"))
                   end)
                [(u "model_id", PyStr (u "m"))]) as [_ H].
    apply H. reflexivity.
Defined.

(* ------------------------------------------------------------------ *)
(** ** The interpreter on token events *)

(** X5: for a line that decodes to a JSON object whose [token] member is an
    object with a string [text], the interpreter returns a chunk with
    exactly that text, whatever else the object and the token hold. *)
Theorem handle_sse_line_token_text (line : pystr) (d d' : PyDictT)
  (s : pystr) :
  json_loads line = Ok (PyDict d) ->
  dict_get (u "token") d = Some (PyDict d') ->
  dict_get (u "text") d' = Some (PyStr s) ->
  _handle_sse_line line = Ok (Some (GenerationChunk.Build (Some s))).
Proof.
  intros Hj Ht Hs. unfold _handle_sse_line.
  rewrite Hj. simpl. rewrite Ht. simpl. rewrite Hs. reflexivity.
Qed.

Lemma handle_sse_line_token_text_witness :
  _handle_sse_line
    (j "{'token': {'id': 5, 'text': ' world', 'special': false}, 'details': null}")
  = Ok (Some (GenerationChunk.Build (Some (u " world")))).
Proof.
  apply (handle_sse_line_token_text _
           [(u "token", PyDict [(u "id", PyInt 5); (u "text", PyStr (u " world"));
                                (u "special", PyBool false)]);
            (u "details", PyNone)]
           [(u "id", PyInt 5); (u "text", PyStr (u " world"));
            (u "special", PyBool false)]);
    reflexivity.
Defined.

(** X6: when the [token] member of the decoded object is present but is not
    an object (a null, a number, a string, an array), the interpreter
    returns no chunk: the default object stands in only for an absent
    member. *)
Theorem handle_sse_line_token_not_object (line : pystr) (d : PyDictT)
  (v : PyVal) :
  json_loads line = Ok (PyDict d) ->
  dict_get (u "token") d = Some v ->
  (forall d', v <> PyDict d') ->
  _handle_sse_line line = Ok None.
Proof.
  intros Hj Ht Hv. unfold _handle_sse_line.
  rewrite Hj. simpl. rewrite Ht. simpl.
  destruct v; try reflexivity. exfalso. apply (Hv d0). reflexivity.
Qed.

Lemma handle_sse_line_token_not_object_witness :
  _handle_sse_line (j "{'token': null}") = Ok None.
Proof.
  apply (handle_sse_line_token_not_object _ [(u "token", PyNone)] PyNone);
    [reflexivity | reflexivity | discriminate].
Defined.

(* ------------------------------------------------------------------ *)
(** ** The streaming loop: discarded lines, bounds, composition *)

Local Open Scope nat_scope.

Lemma discarded_helper (line : bytes) :
  discarded line -> _parse_stream_helper line = Ok None.
Proof.
  intros [H | (rest & D & E)].
  - unfold _parse_stream_helper. rewrite H, andb_false_r. reflexivity.
  - rewrite (parse_stream_helper_data_line line rest D).
    apply bytes_eqb_eq in E. rewrite E. reflexivity.
Qed.

Lemma loop_drop (rm : option CallbackManagerForLLMRun)
  (pre rest : list bytes) (line : bytes) :
  _parse_stream_helper line = Ok None ->
  loop rm (pre ++ line :: rest) = loop rm (pre ++ rest).
Proof.
  intros Hl. induction pre as [|l0 pre IH].
  - cbn [app]. rewrite loop_unfold, Hl. reflexivity.
  - cbn [app]. rewrite !loop_unfold, IH. reflexivity.
Qed.

(** X7: in a streaming call, synchronous or asynchronous, whose response
    has status 200 and whose body text does not hold [error], a line that
    the decoder discards (an empty line, a comment or any line without the
    data prefix, and the sentinel itself) changes nothing, wherever it
    stands among the lines: the call runs exactly as for the response
    without the line, whose own body text need not be the same.  In
    particular the sentinel does not end the stream, and the data lines
    after it are still delivered. *)
Theorem stream_ignores_discarded_lines (line : bytes) :
  discarded line ->
  (forall w self prompt stop rm kwargs txt txt' pre rest aresp aresp',
     str_contains (u "error") txt = false ->
     str_contains (u "error") txt' = false ->
     run (answering w (Response.Build 200 txt (pre ++ line :: rest)) aresp)
         (_stream self prompt stop rm kwargs)
     = run (answering w (Response.Build 200 txt' (pre ++ rest)) aresp')
           (_stream self prompt stop rm kwargs)) /\
  (forall w self prompt stop rm kwargs txt txt' repr repr' js js' pre rest
          resp resp',
     str_contains (u "error") txt = false ->
     str_contains (u "error") txt' = false ->
     run (answering w resp
            (ClientResponse.Build 200 txt (pre ++ line :: rest) js repr))
         (_astream self prompt stop rm kwargs)
     = run (answering w resp'
              (ClientResponse.Build 200 txt' (pre ++ rest) js' repr'))
           (_astream self prompt stop rm kwargs)).
Proof.
  intros D. apply discarded_helper in D. split; intros.
  - apply stream_same_loop;
      [apply loop_drop; exact D | assumption | assumption | reflexivity].
  - apply astream_same_loop;
      [apply loop_drop; exact D | assumption | assumption | reflexivity].
Qed.

Lemma stream_ignores_discarded_lines_witness :
  run (answering offline (Response.Build 200 late_token_text late_token_lines)
                 token_aresponse)
      (_stream sample_llm (u "hi") None None [])
  = ([Sent (streaming_request sample_llm (u "hi") []);
      Yielded (GenerationChunk.Build (Some (u "a")));
      Yielded (GenerationChunk.Build (Some (u "c")))], Ok tt).
Proof.
  assert (D : discarded (jb "data: [DONE]")).
  { right. exists (b "[DONE]"). split; [left|]; reflexivity. }
  destruct (stream_ignores_discarded_lines (jb "data: [DONE]") D) as [H _].
  change late_token_lines
    with ([jb "data: {'token':{'text':'a'}}"; jb ": keep-alive"]
          ++ jb "data: [DONE]" :: [jb "data: {'token':{'text':'c'}}"]).
  rewrite (H offline sample_llm (u "hi") None None []
             late_token_text late_token_text_without_sentinel
             [jb "data: {'token':{'text':'a'}}"; jb ": keep-alive"]
             [jb "data: {'token':{'text':'c'}}"]
             token_aresponse token_aresponse eq_refl eq_refl).
  reflexivity.
Defined.

(** A discarded line that holds the word [error] does end the call, through
    the check of the body text that comes before the loop. *)
Example discarded_error_line_aborts :
  discarded (b "event: error") /\
  run (answering offline
         (Response.Build 200
            (body_text [u "event: error"; j "data: {'token':{'text':'b'}}"])
            [b "event: error"; jb "data: {'token':{'text':'b'}}"])
         error_aresponse)
      (_stream sample_llm (u "hi") None None [])
  = ([Sent (streaming_request sample_llm (u "hi") [])],
     Err (Exception
            (u "DeepInfra Server: "
             ++ body_text [u "event: error";
                           j "data: {'token':{'text':'b'}}"]))).
Proof. split; [left; reflexivity | reflexivity]. Qed.

Lemma count_yielded_Yielded {Y} (y : Y) (tr : list (Event Y)) :
  count_yielded (Yielded y :: tr) = S (count_yielded tr).
Proof. reflexivity. Qed.

Lemma count_yielded_Notified {Y} (t : option pystr) (tr : list (Event Y)) :
  count_yielded (Notified t :: tr) = count_yielded tr.
Proof. reflexivity. Qed.

Lemma count_notified_Yielded {Y} (y : Y) (tr : list (Event Y)) :
  count_notified (Yielded y :: tr) = count_notified tr.
Proof. reflexivity. Qed.

Lemma loop_count_yielded (w : World) (rm : option CallbackManagerForLLMRun)
  (lines : list bytes) :
  forall seen,
    count_yielded (fst (run_from w seen (loop rm lines)))
    <= List.length lines.
Proof.
  induction lines as [|line lines IH]; intros seen; [apply le_n|].
  rewrite loop_unfold. cbn [List.length].
  destruct (_parse_stream_helper line) as [[l|]|e];
    [| specialize (IH seen); lia | cbn; unfold count_yielded; simpl; lia].
  destruct (_handle_sse_line l) as [[c|]|e];
    [| specialize (IH seen); lia | cbn; unfold count_yielded; simpl; lia].
  destruct rm.
  - rewrite run_from_OnToken.
    destruct (on_llm_new_token w seen (GenerationChunk.text c));
      [|cbn; unfold count_yielded; simpl; lia].
    rewrite run_from_Yield. cbn [fst].
    rewrite count_yielded_Notified, count_yielded_Yielded.
    specialize (IH (GenerationChunk.text c :: seen)). lia.
  - rewrite run_from_Yield. cbn [fst]. rewrite count_yielded_Yielded.
    specialize (IH seen). lia.
Qed.

Lemma loop_no_notify (w : World) (lines : list bytes) :
  forall seen, count_notified (fst (run_from w seen (loop (@None CallbackManagerForLLMRun) lines))) = 0.
Proof.
  induction lines as [|line lines IH]; intros seen; [reflexivity|].
  rewrite (loop_unfold (@None CallbackManagerForLLMRun)).
  destruct (_parse_stream_helper line) as [[l|]|e];
    [| apply IH | reflexivity].
  destruct (_handle_sse_line l) as [[c|]|e]; [| apply IH | reflexivity].
  rewrite run_from_Yield. cbn [fst]. rewrite count_notified_Yielded. apply IH.
Qed.

(** X8: when the body of the response to a streaming call does not contain
    [error] and the status is not 200, the call raises the error of status
    classification right after sending the request: no line of the response
    is decoded, nothing is yielded and the observer is not notified. *)
Theorem stream_status_failure (w : World) (self : DeepInfra) (prompt : pystr)
  (stop : option (list pystr)) (rm : option CallbackManagerForLLMRun)
  (kwargs : PyDictT) :
  (forall resp,
     post w (streaming_request self prompt kwargs) = Ok resp ->
     str_contains (u "error") (Response.text resp) = false ->
     Response.status_code resp <> 200%Z ->
     exists e,
       _handle_status self (Response.status_code resp) (Response.text resp)
       = Err e /\
       run w (_stream self prompt stop rm kwargs)
       = ([Sent (streaming_request self prompt kwargs)], Err e)) /\
  (forall resp,
     apost w (streaming_request self prompt kwargs) = Ok resp ->
     str_contains (u "error") (ClientResponse.text resp) = false ->
     ClientResponse.status resp <> 200%Z ->
     exists e,
       _handle_status self (ClientResponse.status resp)
                      (ClientResponse.text_repr resp) = Err e /\
       run w (_astream self prompt stop rm kwargs)
       = ([Sent (streaming_request self prompt kwargs)], Err e)).
Proof.
  split; intros resp Hp Hc Hs.
  - destruct (handle_status_200 self _ (Response.text resp) Hs) as [e He].
    exists e. split; [exact He|].
    rewrite stream_run. cbv zeta. rewrite Hp, Hc, He. reflexivity.
  - destruct (handle_status_200 self _ (ClientResponse.text_repr resp) Hs)
      as [e He].
    exists e. split; [exact He|].
    rewrite astream_run. cbv zeta. rewrite Hp, Hc, He. reflexivity.
Qed.

Lemma stream_status_failure_witness :
  run (answering offline (Response.Build 201 (u "created") token_lines)
                 token_aresponse)
      (_stream sample_llm (u "hi") None (Some callback_manager) [])
  = ([Sent (streaming_request sample_llm (u "hi") [])],
     Err (Exception
            (u "DeepInfra returned an unexpected response with status 201: created"))).
Proof.
  destruct (stream_status_failure
              (answering offline (Response.Build 201 (u "created") token_lines)
                         token_aresponse)
              sample_llm (u "hi") None (Some callback_manager) []) as [H _].
  destruct (H (Response.Build 201 (u "created") token_lines) eq_refl eq_refl)
    as (e & He & Hr).
  { cbn. discriminate. }
  rewrite Hr. f_equal. rewrite <- He. reflexivity.
Defined.

(** X9: a streaming call yields at most as many chunks as the response has
    lines, and none when the transport fails. *)
Theorem stream_chunks_bounded (w : World) (self : DeepInfra) (prompt : pystr)
  (stop : option (list pystr)) (rm : option CallbackManagerForLLMRun)
  (kwargs : PyDictT) :
  count_yielded (fst (run w (_stream self prompt stop rm kwargs)))
  <= match post w (streaming_request self prompt kwargs) with
     | Ok resp => List.length (Response.iter_lines resp)
     | Err _ => 0
     end /\
  count_yielded (fst (run w (_astream self prompt stop rm kwargs)))
  <= match apost w (streaming_request self prompt kwargs) with
     | Ok resp => List.length (ClientResponse.content resp)
     | Err _ => 0
     end.
Proof.
  split.
  - rewrite stream_run. cbv zeta.
    destruct (post w _) as [resp|e]; [|apply le_n].
    destruct (str_contains _ _); [apply Nat.le_0_l|].
    destruct (_handle_status _ _ _); [|apply Nat.le_0_l].
    cbn [fst]. change (count_yielded (Sent ?r :: ?tr)) with (count_yielded tr).
    apply loop_count_yielded.
  - rewrite astream_run. cbv zeta.
    destruct (apost w _) as [resp|e]; [|apply le_n].
    destruct (str_contains _ _); [apply Nat.le_0_l|].
    destruct (_handle_status _ _ _); [|apply Nat.le_0_l].
    cbn [fst]. change (count_yielded (Sent ?r :: ?tr)) with (count_yielded tr).
    apply loop_count_yielded.
Qed.

(** X10: a streaming call made without a callback manager never notifies
    the observer. *)
Theorem stream_without_manager_never_notifies (w : World) (self : DeepInfra)
  (prompt : pystr) (stop : option (list pystr)) (kwargs : PyDictT) :
  count_notified (fst (run w (_stream self prompt stop None kwargs))) = 0 /\
  count_notified (fst (run w (_astream self prompt stop None kwargs))) = 0.
Proof.
  split.
  - rewrite stream_run. cbv zeta.
    destruct (post w _) as [resp|e]; [|reflexivity].
    destruct (str_contains _ _); [reflexivity|].
    destruct (_handle_status _ _ _); [|reflexivity].
    cbn [fst]. change (count_notified (Sent ?r :: ?tr)) with (count_notified tr).
    apply loop_no_notify.
  - rewrite astream_run. cbv zeta.
    destruct (apost w _) as [resp|e]; [|reflexivity].
    destruct (str_contains _ _); [reflexivity|].
    destruct (_handle_status _ _ _); [|reflexivity].
    cbn [fst]. change (count_notified (Sent ?r :: ?tr)) with (count_notified tr).
    apply loop_no_notify.
Qed.

Lemma handle_sse_line_ok (line : pystr) :
  exists r, _handle_sse_line line = Ok r.
Proof.
  unfold _handle_sse_line.
  destruct (json_loads line) as [obj|e]; simpl; [|eauto].
  destruct (py_get obj (u "token") (PyDict [])) as [token|e]; simpl; [|eauto].
  destruct (py_get token (u "text") PyNone) as [text|e]; simpl; [|eauto].
  destruct (GenerationChunk.make text) as [chunk|e]; simpl; eauto.
Qed.

Lemma observed_app (a c : list GenerationChunk.t) :
  observed (a ++ c) = observed a ++ observed c.
Proof. unfold observed. apply flat_map_app. Qed.

(** Without an observer, the loop over decodable lines yields their chunks
    and goes on with the rest. *)
Lemma loop_app_none (w : World) (pre rest : list bytes) :
  Forall decodable pre ->
  forall seen,
    run_from w seen (loop (@None CallbackManagerForLLMRun) (pre ++ rest))
    = (map Yielded (chunks_of_lines pre)
       ++ fst (run_from w seen (loop (@None CallbackManagerForLLMRun) rest)),
       snd (run_from w seen (loop (@None CallbackManagerForLLMRun) rest))).
Proof.
  induction 1 as [|line pre [r Hr] _ IH]; intros seen.
  - cbn [app chunks_of_lines flat_map map].
    destruct (run_from w seen _). reflexivity.
  - cbn [app]. rewrite (loop_unfold (@None CallbackManagerForLLMRun)).
    unfold chunks_of_lines. cbn [flat_map]. unfold chunk_of_line at 1.
    rewrite Hr. destruct r as [l|]; [|apply IH].
    destruct (handle_sse_line_ok l) as [[c|] Hc]; rewrite Hc; [|apply IH].
    rewrite run_from_Yield, IH. reflexivity.
Qed.

(** Under an observer that does not raise, the loop over decodable lines
    notifies and yields their chunks and goes on with the rest. *)
Lemma loop_app_observed (w : World) (m : CallbackManagerForLLMRun)
  (pre rest : list bytes) :
  (forall seen t, on_llm_new_token w seen t = Ok tt) ->
  Forall decodable pre ->
  forall seen, exists seen',
    run_from w seen (loop (Some m) (pre ++ rest))
    = (observed (chunks_of_lines pre)
       ++ fst (run_from w seen' (loop (Some m) rest)),
       snd (run_from w seen' (loop (Some m) rest))).
Proof.
  intros Hobs. induction 1 as [|line pre [r Hr] _ IH]; intros seen.
  - exists seen. cbn [app chunks_of_lines flat_map observed].
    destruct (run_from w seen _). reflexivity.
  - cbn [app]. rewrite (loop_unfold (Some m)).
    unfold chunks_of_lines. cbn [flat_map]. unfold chunk_of_line at 1.
    rewrite Hr. destruct r as [l|]; [|apply IH].
    destruct (handle_sse_line_ok l) as [[c|] Hc]; rewrite Hc; [|apply IH].
    rewrite run_from_OnToken, Hobs, run_from_Yield.
    destruct (IH (GenerationChunk.text c :: seen)) as [seen' E].
    exists seen'. rewrite E. reflexivity.
Qed.

(** X11: for a response with status 200, no [error] in its body and lines
    that all decode, a streaming call ends normally after delivering, in
    order, exactly the chunks that the interpreter makes of the decoder's
    payloads; under an observer that does not raise, each chunk comes right
    after the notification of its text. *)
Theorem stream_delivers_interpreted_lines (w : World) (self : DeepInfra)
  (prompt : pystr) (stop : option (list pystr)) (kwargs : PyDictT)
  (resp : Response.t) :
  post w (streaming_request self prompt kwargs) = Ok resp ->
  str_contains (u "error") (Response.text resp) = false ->
  Response.status_code resp = 200%Z ->
  Forall decodable (Response.iter_lines resp) ->
  run w (_stream self prompt stop None kwargs)
  = (Sent (streaming_request self prompt kwargs)
     :: map Yielded (chunks_of_lines (Response.iter_lines resp)), Ok tt) /\
  ((forall seen t, on_llm_new_token w seen t = Ok tt) ->
   forall m,
     run w (_stream self prompt stop (Some m) kwargs)
     = (Sent (streaming_request self prompt kwargs)
        :: observed (chunks_of_lines (Response.iter_lines resp)), Ok tt)).
Proof.
  intros Hp Hc Hs Hd. split; [|intros Hobs m];
    rewrite stream_run; cbv zeta; rewrite Hp, Hc, Hs;
    change (_handle_status self 200 (Response.text resp)) with (@Ok unit tt);
    cbv iota.
  - rewrite <- (app_nil_r (Response.iter_lines resp)) at 1 2.
    rewrite (loop_app_none w _ [] Hd). cbn [fst snd run_from for_each
                                              _parse_stream].
    rewrite app_nil_r. reflexivity.
  - rewrite <- (app_nil_r (Response.iter_lines resp)) at 1 2.
    destruct (loop_app_observed w m _ [] Hobs Hd []) as [seen' E].
    rewrite E. cbn [fst snd run_from for_each _parse_stream].
    rewrite app_nil_r. reflexivity.
Qed.

Lemma stream_delivers_interpreted_lines_witness :
  run (answering offline (Response.Build 200 (u "") late_token_lines)
                 token_aresponse)
      (_stream sample_llm (u "hi") None None [])
  = (Sent (streaming_request sample_llm (u "hi") [])
     :: map Yielded (chunks_of_lines late_token_lines), Ok tt) /\
  chunks_of_lines late_token_lines
  = [GenerationChunk.Build (Some (u "a")); GenerationChunk.Build (Some (u "c"))].
Proof.
  split; [|reflexivity].
  apply (stream_delivers_interpreted_lines
           (answering offline (Response.Build 200 (u "") late_token_lines)
                      token_aresponse)
           sample_llm (u "hi") None []
           (Response.Build 200 (u "") late_token_lines));
    try reflexivity.
  repeat constructor; eexists; reflexivity.
Defined.

(** X12: when a line of the response cannot be decoded as UTF-8 and the
    lines before it decode, a streaming call (status 200, no [error] in the
    body) delivers the chunks of the lines before it and then raises the
    decoding error: the lines after it are never delivered. *)
Theorem stream_decode_error_cuts (w : World) (self : DeepInfra)
  (prompt : pystr) (stop : option (list pystr)) (kwargs : PyDictT)
  (resp : Response.t) (pre rest : list bytes) (bad : bytes) (e : PyExc) :
  post w (streaming_request self prompt kwargs) = Ok resp ->
  str_contains (u "error") (Response.text resp) = false ->
  Response.status_code resp = 200%Z ->
  Response.iter_lines resp = pre ++ bad :: rest ->
  Forall decodable pre ->
  _parse_stream_helper bad = Err e ->
  run w (_stream self prompt stop None kwargs)
  = (Sent (streaming_request self prompt kwargs)
     :: map Yielded (chunks_of_lines pre), Err e) /\
  ((forall seen t, on_llm_new_token w seen t = Ok tt) ->
   forall m,
     run w (_stream self prompt stop (Some m) kwargs)
     = (Sent (streaming_request self prompt kwargs)
        :: observed (chunks_of_lines pre), Err e)).
Proof.
  intros Hp Hc Hs Hl Hd Hb. split; [|intros Hobs m];
    rewrite stream_run; cbv zeta; rewrite Hp, Hc, Hs, Hl;
    change (_handle_status self 200 (Response.text resp)) with (@Ok unit tt);
    cbv iota.
  - rewrite (loop_app_none w _ (bad :: rest) Hd).
    rewrite (loop_unfold (@None CallbackManagerForLLMRun)), Hb.
    cbn [fst snd run_from]. rewrite app_nil_r. reflexivity.
  - destruct (loop_app_observed w m _ (bad :: rest) Hobs Hd []) as [seen' E].
    rewrite E. rewrite (loop_unfold (Some m)), Hb.
    cbn [fst snd run_from]. rewrite app_nil_r. reflexivity.
Qed.

Lemma stream_decode_error_cuts_witness :
  run (answering offline (Response.Build 200 (u "") broken_lines)
                 token_aresponse)
      (_stream sample_llm (u "hi") None None [])
  = ([Sent (streaming_request sample_llm (u "hi") []);
      Yielded (GenerationChunk.Build (Some (u "a")))],
     Err UnicodeDecodeError).
Proof.
  apply (stream_decode_error_cuts
           (answering offline (Response.Build 200 (u "") broken_lines)
                      token_aresponse)
           sample_llm (u "hi") None []
           (Response.Build 200 (u "") broken_lines)
           [jb "data: {'token':{'text':'a'}}"]
           [jb "data: {'token':{'text':'b'}}"]
           (b "data: " ++ [xe2; x82]) UnicodeDecodeError);
    try reflexivity.
  repeat constructor; eexists; reflexivity.
Defined.

(* ------------------------------------------------------------------ *)
(** ** Synchronous and asynchronous entry points *)

(** X13: when the two transports answer with the same status, the same
    body text and the same lines, the asynchronous streaming call does what
    the synchronous one does: the same events in the same order, with the
    same result whenever the status is 200; on another status both raise,
    with messages that differ only by what is formatted in place of the
    text. *)
Theorem astream_agrees_with_stream (w : World) (self : DeepInfra)
  (prompt : pystr) (stop : option (list pystr))
  (rm : option CallbackManagerForLLMRun) (kwargs : PyDictT)
  (resp : Response.t) (aresp : ClientResponse.t) :
  post w (streaming_request self prompt kwargs) = Ok resp ->
  apost w (streaming_request self prompt kwargs) = Ok aresp ->
  ClientResponse.status aresp = Response.status_code resp ->
  ClientResponse.text aresp = Response.text resp ->
  ClientResponse.content aresp = Response.iter_lines resp ->
  fst (run w (_astream self prompt stop rm kwargs))
  = fst (run w (_stream self prompt stop rm kwargs)) /\
  (Response.status_code resp = 200%Z \/
   ClientResponse.text_repr aresp = Response.text resp ->
   run w (_astream self prompt stop rm kwargs)
   = run w (_stream self prompt stop rm kwargs)) /\
  (Response.status_code resp <> 200%Z ->
   str_contains (u "error") (Response.text resp) = false ->
   snd (run w (_astream self prompt stop rm kwargs))
   = _handle_status self (Response.status_code resp)
                    (ClientResponse.text_repr aresp) /\
   snd (run w (_stream self prompt stop rm kwargs))
   = _handle_status self (Response.status_code resp) (Response.text resp)).
Proof.
  intros Hp Ha Hs Ht Hc.
  rewrite stream_run, astream_run. cbv zeta. rewrite Hp, Ha, Hs, Ht, Hc.
  split; [|split].
  - destruct (str_contains _ _); [reflexivity|].
    destruct (Z.eq_dec (Response.status_code resp) 200) as [E|E].
    + rewrite E. reflexivity.
    + destruct (handle_status_200 self _ (ClientResponse.text_repr aresp) E)
        as [e1 H1].
      destruct (handle_status_200 self _ (Response.text resp) E) as [e2 H2].
      rewrite H1, H2. reflexivity.
  - intros [E | E]; rewrite E; reflexivity.
  - intros Hn Hf. rewrite Hf.
    destruct (handle_status_200 self _ (ClientResponse.text_repr aresp) Hn)
      as [e1 H1].
    destruct (handle_status_200 self _ (Response.text resp) Hn) as [e2 H2].
    rewrite H1, H2. split; reflexivity.
Qed.

Lemma astream_agrees_with_stream_witness :
  run (answering offline token_response token_aresponse)
      (_astream sample_llm (u "hi") None (Some callback_manager) [])
  = run (answering offline token_response token_aresponse)
        (_stream sample_llm (u "hi") None (Some callback_manager) []).
Proof.
  destruct (astream_agrees_with_stream
              (answering offline token_response token_aresponse)
              sample_llm (u "hi") None (Some callback_manager) []
              token_response token_aresponse
              eq_refl eq_refl eq_refl eq_refl eq_refl) as (_ & H & _).
  apply H. left. reflexivity.
Defined.

(** X14: when the status of the response to a blocking call, synchronous or
    asynchronous, is not 200, the call raises the error of status
    classification right after sending the request, whatever the body: the
    body is never decoded. *)
Theorem call_status_failure (w : World) (self : DeepInfra) (prompt : pystr)
  (stop : option (list pystr)) (rm : option CallbackManagerForLLMRun)
  (kwargs : PyDictT) :
  (forall resp,
     post w (blocking_request self prompt kwargs) = Ok resp ->
     Response.status_code resp <> 200%Z ->
     exists e,
       _handle_status self (Response.status_code resp) (Response.text resp)
       = Err e /\
       run w (_call self prompt stop rm kwargs)
       = ([Sent (blocking_request self prompt kwargs)], Err e)) /\
  (forall resp,
     apost w (blocking_request self prompt kwargs) = Ok resp ->
     ClientResponse.status resp <> 200%Z ->
     exists e,
       _handle_status self (ClientResponse.status resp)
                      (ClientResponse.text_repr resp) = Err e /\
       run w (_acall self prompt stop rm kwargs)
       = ([Sent (blocking_request self prompt kwargs)], Err e)).
Proof.
  split; intros resp Hp Hs.
  - destruct (handle_status_200 self _ (Response.text resp) Hs) as [e He].
    exists e. split; [exact He|].
    rewrite call_run. cbv zeta. rewrite Hp, He. reflexivity.
  - destruct (handle_status_200 self _ (ClientResponse.text_repr resp) Hs)
      as [e He].
    exists e. split; [exact He|].
    rewrite acall_run. cbv zeta. rewrite Hp, He. reflexivity.
Qed.

Lemma call_status_failure_witness :
  run (answering offline not_found_response not_found_aresponse)
      (_call sample_llm (u "hi") None None [])
  = ([Sent (blocking_request sample_llm (u "hi") [])],
     Err (Exception
            (u "DeepInfra Server: Model not found meta-llama/Meta-Llama-3-70B-Instruct")))
  /\
  run (answering offline not_found_response not_found_aresponse)
      (_acall sample_llm (u "hi") None None [])
  = ([Sent (blocking_request sample_llm (u "hi") [])],
     Err (Exception
            (u "DeepInfra Server: Model not found meta-llama/Meta-Llama-3-70B-Instruct"))).
Proof.
  destruct (call_status_failure
              (answering offline not_found_response not_found_aresponse)
              sample_llm (u "hi") None None []) as [Hs Ha].
  split.
  - destruct (Hs not_found_response eq_refl) as (e & He & Hr).
    { cbn. discriminate. }
    rewrite Hr. vm_compute in He. injection He as <-. reflexivity.
  - destruct (Ha not_found_aresponse eq_refl) as (e & He & Hr).
    { cbn. discriminate. }
    rewrite Hr. vm_compute in He. injection He as <-. reflexivity.
Defined.

(** X15: for an asynchronous blocking call whose response has status 200,
    when decoding the body gives a value with something at
    [results[0].generated_text] the call returns exactly that; when the
    path cannot be followed it raises a look-up error that status
    classification never raises; and when decoding the body raises, the
    call raises that same error. *)
Theorem acall_returns_generated_text (w : World) (self : DeepInfra)
  (prompt : pystr) (stop : option (list pystr))
  (rm : option CallbackManagerForLLMRun) (kwargs : PyDictT)
  (resp : ClientResponse.t) :
  apost w (blocking_request self prompt kwargs) = Ok resp ->
  ClientResponse.status resp = 200%Z ->
  (forall data v,
     ClientResponse.json resp = Ok data ->
     generated_text_path data = Some v ->
     snd (run w (_acall self prompt stop rm kwargs)) = Ok v) /\
  (forall data,
     ClientResponse.json resp = Ok data ->
     generated_text_path data = None ->
     exists e,
       snd (run w (_acall self prompt stop rm kwargs)) = Err e /\
       status_error e = false) /\
  (forall e,
     ClientResponse.json resp = Err e ->
     snd (run w (_acall self prompt stop rm kwargs)) = Err e).
Proof.
  intros Hp Hs. rewrite acall_run. cbv zeta. rewrite Hp, Hs.
  change (_handle_status self 200 (ClientResponse.text_repr resp))
    with (@Ok unit tt).
  cbn [snd bindR].
  split; [|split].
  - intros data v -> Hv. cbn [bindR].
    pose proof (lookups_path data) as L. rewrite Hv in L. exact L.
  - intros data -> Hv. cbn [bindR].
    pose proof (lookups_path data) as L. rewrite Hv in L.
    destruct L as [L | [L | L]]; rewrite L; eexists; split; reflexivity.
  - intros e ->. reflexivity.
Qed.

Lemma acall_returns_generated_text_witness :
  snd (run (answering offline hello_response hello_aresponse)
           (_acall sample_llm (u "hi") None None []))
  = Ok (PyStr (u "hello")).
Proof.
  destruct (acall_returns_generated_text
              (answering offline hello_response hello_aresponse)
              sample_llm (u "hi") None None [] hello_aresponse
              eq_refl eq_refl) as (H & _).
  apply (H (PyDict [(u "results",
                     PyList [PyDict [(u "generated_text",
                                      PyStr (u "hello"))]])]));
    reflexivity.
Defined.

(* ------------------------------------------------------------------ *)
(** ** What the decoder yields *)

(** X16: whenever the decoder yields a text for a raw line, the line is a
    data line, the text is the decoding of its whole remainder (so it
    encodes back to those bytes, five or six bytes shorter than the line),
    and the remainder is not the sentinel: the sentinel and the lines
    without the data prefix never reach the interpreter. *)
Theorem parse_stream_helper_yield_inversion (line : bytes) (s : pystr) :
  _parse_stream_helper line = Ok (Some s) ->
  exists rest,
    data_line line rest /\
    utf8_decode rest = Some s /\
    utf8_encode s = rest /\
    bytes_strip rest <> b "[DONE]" /\
    List.length rest + 5 <= List.length line <= List.length rest + 6.
Proof.
  intros H.
  destruct (bytes_startswith (b "data:") line) eqn:P.
  - apply data_line_startswith in P. destruct P as [rest D].
    exists rest. split; [exact D|].
    rewrite (parse_stream_helper_data_line line rest D) in H.
    destruct (bytes_eqb (bytes_strip rest) (b "[DONE]")) eqn:E;
      [discriminate H|].
    apply bytes_eqb_neq in E.
    destruct (utf8_decode rest) as [s'|] eqn:U; [|discriminate H].
    injection H as ->.
    split; [reflexivity|]. split; [apply utf8_decode_encode; exact U|].
    split; [exact E|].
    destruct D as [-> | [-> _]]; rewrite length_app; simpl; lia.
  - unfold _parse_stream_helper in H. rewrite P, andb_false_r in H.
    discriminate H.
Qed.

Lemma parse_stream_helper_yield_inversion_witness :
  exists rest,
    data_line (jb "data:{'a': 1}") rest /\
    utf8_decode rest = Some (j "{'a': 1}") /\
    utf8_encode (j "{'a': 1}") = rest /\
    bytes_strip rest <> b "[DONE]" /\
    List.length rest + 5 <= List.length (jb "data:{'a': 1}")
                         <= List.length rest + 6.
Proof.
  apply (parse_stream_helper_yield_inversion (jb "data:{'a': 1}")).
  reflexivity.
Defined.
